(** * CogniTrack: the trend-model training script

    A shallow embedding of [training/train_trend_model.py].  The script is a
    straight line of calls into numpy, Keras and [os]; it is embedded as a
    program over those calls, interpreted against a model of the process
    state (loaded modules, file system, Keras objects) in which every library
    call may raise. *)

From Stdlib Require Import String Ascii List ZArith QArith Lia.
From stdpp Require Import gmap strings list fin_maps.
Import ListNotations.

Local Close Scope Q_scope.
Local Open Scope string_scope.
Local Open Scope list_scope.

(** ** Paths *)

(** An absolute, normalised path: its components from the root down. *)
Abbreviation path := (list string).

Fixpoint split_slash (s cur : string) : list string :=
  match s with
  | EmptyString => [cur]
  | String c s' =>
      if Ascii.eqb c "/"%char then cur :: split_slash s' EmptyString
      else split_slash s' (cur ++ String c EmptyString)
  end.

Definition enter (p : path) (comp : string) : path :=
  if String.eqb comp ".." then removelast p
  else if String.eqb comp "." || String.eqb comp "" then p
  else p ++ [comp].

Definition is_absolute (s : string) : bool :=
  match s with
  | String c _ => Ascii.eqb c "/"%char
  | EmptyString => false
  end.

(** What the operating system does with a path string handed to it by a
    process whose working directory is [cwd]. *)
Definition resolve (cwd : path) (s : string) : path :=
  fold_left enter (split_slash s EmptyString) (if is_absolute s then [] else cwd).

Definition parent (p : path) : path := removelast p.

(** The directory itself and every directory above it, root included. *)
Fixpoint ancestors (p : path) : list path :=
  match p with
  | [] => [[]]
  | c :: p' => [] :: map (cons c) (ancestors p')
  end.

(** ** Python objects the script handles *)

Inductive pyobj :=
| Builtin (name : string)
| Native (module name : string).

Inductive exn := Exn (cls : string).

Record ndarray := { nd_shape : list nat; nd_data : list Q }.

(** ** Keras layer configurations *)

Inductive activation := Linear | Relu | Softmax.
Inductive padding := Valid | Same.

Inductive layer :=
| InputLayer (input_shape : list nat)
| Conv1D (filters kernel_size : nat) (act : activation) (pad : padding)
| BatchNormalization
| Dropout (rate : Q)
| GlobalAveragePooling1D
| Dense (units : nat) (act : activation).

Definition layer_name (l : layer) : string :=
  match l with
  | InputLayer _ => "InputLayer"
  | Conv1D _ _ _ _ => "Conv1D"
  | BatchNormalization => "BatchNormalization"
  | Dropout _ => "Dropout"
  | GlobalAveragePooling1D => "GlobalAveragePooling1D"
  | Dense _ _ => "Dense"
  end.

(** Shape of one example after a layer, the batch axis left out. *)
Definition layer_output_shape (l : layer) (s : list nat) : option (list nat) :=
  match l with
  | InputLayer d => if decide (s = d) then Some d else None
  | Conv1D f k _ pad =>
      match s with
      | [steps; _] =>
          match pad with
          | Same => Some [steps; f]
          | Valid => if (k <=? steps)%nat then Some [steps - k + 1; f]%nat else None
          end
      | _ => None
      end
  | BatchNormalization => Some s
  | Dropout _ => Some s
  | GlobalAveragePooling1D =>
      match s with
      | [_; ch] => Some [ch]
      | _ => None
      end
  | Dense u _ =>
      match s with
      | [] => None
      | _ => Some (removelast s ++ [u])
      end
  end.

Definition declared_input_shape (ls : list layer) : option (list nat) :=
  match ls with
  | InputLayer d :: _ => Some d
  | _ => None
  end.

Fixpoint through (ls : list layer) (s : list nat) : option (list nat) :=
  match ls with
  | [] => Some s
  | l :: ls' =>
      match layer_output_shape l s with
      | Some s' => through ls' s'
      | None => None
      end
  end.

(** Output shape of a Sequential model that starts with an [InputLayer]. *)
Definition model_output_shape (ls : list layer) : option (list nat) :=
  match declared_input_shape ls with
  | Some d => through ls d
  | None => None
  end.

(** ** Process state *)

Record compile_config :=
  { optimizer : string; loss : string; metrics : list string }.

Record model_state :=
  { m_layers : list layer;
    m_compiled : option compile_config;
    m_epochs_trained : nat }.

(** The object [model.fit] returns: the epochs it has run. *)
Record History := { epoch : list nat }.

Inductive content :=
| Npz (arrays : gmap string ndarray)
| KerasArchive (m : model_state)
| Blob.

(** ** Library calls *)

Inductive call :=
| Import (module : string)
| ImportFrom (module name : string)
| SetAttr (module attr : string) (v : pyobj)
| NpLoad (file : string)
| GetItem (d : gmap string ndarray) (key : string)
| Sequential (ls : list layer)
| Compile (m : nat) (optimizer loss : string) (metrics : list string)
| Summary (m : nat)
| Fit (m : nat) (X y : ndarray) (epochs batch_size : nat)
      (validation_split : Q) (verbose : nat)
| Makedirs (name : string) (exist_ok : bool)
| Save (m : nat) (filepath : string)
| Print (s : string).

Definition ret_type (c : call) : Type :=
  match c with
  | NpLoad _ => gmap string ndarray
  | GetItem _ _ => ndarray
  | Sequential _ => nat
  | Fit _ _ _ _ _ _ _ => History
  | _ => unit
  end.

Inductive result := Returned | Raised (e : exn).

Record world :=
  { files : gmap path content;
    dirs : gset path;
    cwd : path;
    modules : gmap string (gmap string pyobj);
    heap : list model_state;
    stdout : list string;
    trace : list (call * result) }.

Definition log (c : call) (r : result) (w : world) : world :=
  {| files := files w; dirs := dirs w; cwd := cwd w; modules := modules w;
     heap := heap w; stdout := stdout w; trace := trace w ++ [(c, r)] |}.

Definition with_files (f : gmap path content) (w : world) : world :=
  {| files := f; dirs := dirs w; cwd := cwd w; modules := modules w;
     heap := heap w; stdout := stdout w; trace := trace w |}.

Definition with_dirs (d : gset path) (w : world) : world :=
  {| files := files w; dirs := d; cwd := cwd w; modules := modules w;
     heap := heap w; stdout := stdout w; trace := trace w |}.

Definition with_modules (m : gmap string (gmap string pyobj)) (w : world) : world :=
  {| files := files w; dirs := dirs w; cwd := cwd w; modules := m;
     heap := heap w; stdout := stdout w; trace := trace w |}.

Definition with_heap (h : list model_state) (w : world) : world :=
  {| files := files w; dirs := dirs w; cwd := cwd w; modules := modules w;
     heap := h; stdout := stdout w; trace := trace w |}.

Definition with_stdout (o : list string) (w : world) : world :=
  {| files := files w; dirs := dirs w; cwd := cwd w; modules := modules w;
     heap := heap w; stdout := o; trace := trace w |}.

(** ** What each call does when the library does not fail on its own

    The failures listed here are decided by the arguments and the state.  The
    list is not the whole of what the libraries refuse: [fit], for one, also
    refuses fewer than two samples and labels outside the classes.  What is
    not listed is left, with every other cause of failure, to the fault oracle
    of [step]. *)

Definition load_module (m : string) (w : world) : world :=
  with_modules (match modules w !! m with
                | Some _ => modules w
                | None => <[m := ∅]> (modules w)
                end) w.

Definition set_attr (m a : string) (v : pyobj) (w : world) : exn + world :=
  match modules w !! m with
  | Some ns => inr (with_modules (<[m := <[a := v]> ns]> (modules w)) w)
  | None => inl (Exn "NameError")
  end.

(** [np.load] opens the path for reading.  Where no regular file is, the
    operating system refuses in one of two ways: the path is a directory, or
    nothing is there. *)
Definition np_load (file : string) (w : world) : exn + gmap string ndarray :=
  let target := resolve (cwd w) file in
  match files w !! target with
  | Some (Npz arrays) => inr arrays
  | Some _ => inl (Exn "ValueError")
  | None =>
      inl (Exn (if bool_decide (target ∈ dirs w)
                then "IsADirectoryError" else "FileNotFoundError"))
  end.

Definition getitem (d : gmap string ndarray) (key : string) : exn + ndarray :=
  match d !! key with
  | Some a => inr a
  | None => inl (Exn "KeyError")
  end.

(** A model that starts with an [InputLayer] is built on construction, which
    fails when a layer cannot take the shape it is given. *)
Definition buildable (ls : list layer) : bool :=
  match declared_input_shape ls with
  | Some _ => bool_decide (is_Some (model_output_shape ls))
  | None => true
  end.

Definition new_model (ls : list layer) (w : world) : exn + (nat * world) :=
  if buildable ls
  then inr (length (heap w),
            with_heap (heap w ++ [{| m_layers := ls; m_compiled := None;
                                     m_epochs_trained := 0 |}]) w)
  else inl (Exn "ValueError").

Definition compile_model (m : nat) (cfg : compile_config) (w : world) : exn + world :=
  match heap w !! m with
  | Some st =>
      inr (with_heap (<[m := {| m_layers := m_layers st; m_compiled := Some cfg;
                                m_epochs_trained := m_epochs_trained st |}]>
                        (heap w)) w)
  | None => inl (Exn "NameError")
  end.

Definition summary (m : nat) (w : world) : exn + world :=
  match heap w !! m with
  | Some st => inr (with_stdout (stdout w ++ map layer_name (m_layers st)) w)
  | None => inl (Exn "NameError")
  end.

(** What Keras 3 holds a batch to when a model that starts with an
    [InputLayer] is called on it: the rank of the declared input, and its last
    axis, the features the first convolution was built for.  The other axes of
    the declared shape, here the number of time steps, are not compared.  (A
    Keras that compares them too refuses more; such a refusal is one of the
    failures of the library that [step] takes from its oracle.) *)
Definition conforms (ls : list layer) (X : ndarray) : bool :=
  match declared_input_shape ls, nd_shape X with
  | Some d, _ :: s => bool_decide (length s = length d /\ last s = last d)
  | Some _, [] => false
  | None, _ => true
  end.

(** What [fit] raises on a batch it cannot take: an array without a batch axis
    has no first axis to count the samples along. *)
Definition batch_error (ls : list layer) (X : ndarray) : option exn :=
  match nd_shape X with
  | [] => Some (Exn "IndexError")
  | _ :: _ => if conforms ls X then None else Some (Exn "ValueError")
  end.

Definition fit_model (m : nat) (X : ndarray) (epochs : nat) (w : world)
  : exn + (History * world) :=
  match heap w !! m with
  | Some st =>
      match m_compiled st with
      | Some _ =>
          match batch_error (m_layers st) X with
          | Some e => inl e
          | None =>
              inr ({| epoch := seq 0 epochs |},
                   with_heap (<[m := {| m_layers := m_layers st;
                                        m_compiled := m_compiled st;
                                        m_epochs_trained :=
                                          m_epochs_trained st + epochs |}]>
                                (heap w)) w)
          end
      | None => inl (Exn "RuntimeError")
      end
  | None => inl (Exn "NameError")
  end.

Definition makedirs (name : string) (exist_ok : bool) (w : world) : exn + world :=
  let target := resolve (cwd w) name in
  match files w !! target with
  | Some _ => inl (Exn "FileExistsError")
  | None =>
      if bool_decide (target ∈ dirs w) && negb exist_ok
      then inl (Exn "FileExistsError")
      else inr (with_dirs (dirs w ∪ list_to_set (ancestors target)) w)
  end.

Definition save_model (m : nat) (filepath : string) (w : world) : exn + world :=
  match heap w !! m with
  | Some st =>
      inr (with_files (<[resolve (cwd w) filepath := KerasArchive st]> (files w)) w)
  | None => inl (Exn "NameError")
  end.

Definition unit_call (r : exn + world) : exn + (unit * world) :=
  match r with
  | inl e => inl e
  | inr w => inr (tt, w)
  end.

Definition pure_call {A : Type} (r : exn + A) (w : world) : exn + (A * world) :=
  match r with
  | inl e => inl e
  | inr a => inr (a, w)
  end.

Definition sem (c : call) (w : world) : exn + (ret_type c * world) :=
  match c return exn + (ret_type c * world) with
  | Import m => inr (tt, load_module m w)
  | ImportFrom m _ => inr (tt, load_module m w)
  | SetAttr m a v => unit_call (set_attr m a v w)
  | NpLoad file => pure_call (np_load file w) w
  | GetItem d key => pure_call (getitem d key) w
  | Sequential ls => new_model ls w
  | Compile m o l ms =>
      unit_call (compile_model m {| optimizer := o; loss := l; metrics := ms |} w)
  | Summary m => unit_call (summary m w)
  | Fit m X _ epochs _ _ _ => fit_model m X epochs w
  | Makedirs name exist_ok => unit_call (makedirs name exist_ok w)
  | Save m filepath => unit_call (save_model m filepath w)
  | Print s => inr (tt, with_stdout (stdout w ++ [s]) w)
  end.

(** Assigning to a module attribute is the interpreter's own work; every other
    call runs library code and can raise for reasons of its own. *)
Definition fallible (c : call) : bool :=
  match c with
  | SetAttr _ _ _ => false
  | _ => true
  end.

(** ** Programs over library calls *)

Inductive prog (A : Type) : Type :=
| Ret (a : A)
| Do (c : call) (k : ret_type c -> prog A)
| TryExcept (body : prog unit) (handler : exn -> prog unit) (k : prog A).

Arguments Ret {A} a.
Arguments Do {A} c k.
Arguments TryExcept {A} body handler k.

Fixpoint bind {A B : Type} (p : prog A) (f : A -> prog B) : prog B :=
  match p with
  | Ret a => f a
  | Do c k => Do c (fun r => bind (k r) f)
  | TryExcept body handler k => TryExcept body handler (bind k f)
  end.

#[global] Instance prog_ret : MRet prog := @Ret.
#[global] Instance prog_bind : MBind prog := fun A B f p => bind p f.

Definition perform (c : call) : prog (ret_type c) := Do c Ret.

Section Run.
(** The library's own failures: whether this call, made in this state,
    raises, and what.  A call that raises leaves the state as it found it,
    but for the trace. *)
Variable fault : call -> world -> option exn.

Definition step (c : call) (w : world) : (exn + ret_type c) * world :=
  match (if fallible c then fault c w else None) with
  | Some e => (inl e, log c (Raised e) w)
  | None =>
      match sem c w with
      | inl e => (inl e, log c (Raised e) w)
      | inr (r, w') => (inr r, log c Returned w')
      end
  end.

Fixpoint run {A : Type} (p : prog A) (w : world) : (exn + A) * world :=
  match p with
  | Ret a => (inr a, w)
  | Do c k =>
      match step c w with
      | (inl e, w') => (inl e, w')
      | (inr r, w') => run (k r) w'
      end
  | TryExcept body handler k =>
      match run body w with
      | (inr _, w') => run k w'
      | (inl e, w') =>
          match run (handler e) w' with
          | (inr _, w'') => run k w''
          | (inl e', w'') => (inl e', w'')
          end
      end
  end.

Definition outcome {A : Type} (p : prog A) (w : world) : exn + A := fst (run p w).
Definition final {A : Type} (p : prog A) (w : world) : world := snd (run p w).

(** The calls a run makes, in order, each with how it ended. *)
Definition events {A : Type} (p : prog A) (w : world) : list (call * result) :=
  drop (length (trace w)) (trace (final p w)).
End Run.

(** ** The script *)

Definition input_shape : list nat := [6; 8].

Definition architecture : list layer :=
  [ InputLayer input_shape;
    Conv1D 32 3 Relu Same;
    BatchNormalization;
    Dropout 0.2;
    Conv1D 16 3 Relu Same;
    GlobalAveragePooling1D;
    Dense 16 Relu;
    Dense 3 Softmax ].

Definition model_dir : string := "../public/models/trend-cnn".

Definition script : prog unit :=
  perform (Import "numpy");;
  perform (SetAttr "numpy" "object" (Builtin "object"));;
  perform (SetAttr "numpy" "bool" (Builtin "bool"));;
  perform (Import "tensorflow");;
  perform (ImportFrom "tensorflow" "keras");;
  perform (ImportFrom "tensorflow.keras" "layers");;
  perform (Import "os");;
  data ← perform (NpLoad "training_data.npz");
  X ← perform (GetItem data "X");
  y ← perform (GetItem data "y");
  model ← perform (Sequential architecture);
  perform (Compile model "adam" "sparse_categorical_crossentropy" ["accuracy"]);;
  perform (Summary model);;
  history ← perform (Fit model X y 20 32 0.2 1);
  perform (Makedirs model_dir true);;
  perform (Save model "trend_model.keras");;
  perform (Print "Saved trend_model.keras").

(** The calls of the script in source order, given what the earlier calls
    returned: the archive, its two arrays and the model object. *)
Definition script_calls (data : gmap string ndarray) (X y : ndarray) (model : nat)
  : list call :=
  [ Import "numpy";
    SetAttr "numpy" "object" (Builtin "object");
    SetAttr "numpy" "bool" (Builtin "bool");
    Import "tensorflow";
    ImportFrom "tensorflow" "keras";
    ImportFrom "tensorflow.keras" "layers";
    Import "os";
    NpLoad "training_data.npz";
    GetItem data "X";
    GetItem data "y";
    Sequential architecture;
    Compile model "adam" "sparse_categorical_crossentropy" ["accuracy"];
    Summary model;
    Fit model X y 20 32 0.2 1;
    Makedirs model_dir true;
    Save model "trend_model.keras";
    Print "Saved trend_model.keras" ].

Definition returned (c : call) : call * result := (c, Returned).

(** A program with no [try] statement anywhere in it. *)
Inductive handler_free {A : Type} : prog A -> Prop :=
| hf_ret (a : A) : handler_free (Ret a)
| hf_do (c : call) (k : ret_type c -> prog A) :
    (forall r, handler_free (k r)) -> handler_free (Do c k).

(** The five steps the script is made of. *)
Inductive stage := LoadData | Construct | CompileModel | FitModel | SaveModel.

Definition stage_of (c : call) : option stage :=
  match c with
  | NpLoad _ => Some LoadData
  | Sequential _ => Some Construct
  | Compile _ _ _ _ => Some CompileModel
  | Fit _ _ _ _ _ _ _ => Some FitModel
  | Save _ _ => Some SaveModel
  | _ => None
  end.

Definition stages (evs : list (call * result)) : list stage :=
  omap (fun ev => stage_of (fst ev)) evs.

Definition compile_args (c : call) : option (string * string * list string) :=
  match c with
  | Compile _ o l ms => Some (o, l, ms)
  | _ => None
  end.

Definition fit_args (c : call) : option (nat * nat * Q) :=
  match c with
  | Fit _ _ _ epochs batch_size validation_split _ =>
      Some (epochs, batch_size, validation_split)
  | _ => None
  end.

(** The steps that come before the save in the script. *)
Definition before_save (c : call) : bool :=
  match c with
  | Save _ _ | Print _ => false
  | _ => true
  end.

(** The numpy namespace as the script leaves it. *)
Definition numpy_patched (w : world) : Prop :=
  exists ns, modules w !! "numpy" = Some ns
             /\ ns !! "object" = Some (Builtin "object")
             /\ ns !! "bool" = Some (Builtin "bool").

(** The model the script has built, compiled and fitted. *)
Definition trained_model : model_state :=
  {| m_layers := architecture;
     m_compiled := Some {| optimizer := "adam";
                           loss := "sparse_categorical_crossentropy";
                           metrics := ["accuracy"] |};
     m_epochs_trained := 20 |}.

(** How a call that returned or raised shows in the trace. *)
Definition result_of {A : Type} (r : exn + A) : result :=
  match r with
  | inl e => Raised e
  | inr _ => Returned
  end.

(** What [np.load] and indexing give back in a state where they do not fail. *)
Definition stored_data (w : world) : gmap string ndarray :=
  match files w !! resolve (cwd w) "training_data.npz" with
  | Some (Npz arrays) => arrays
  | _ => ∅
  end.

Definition stored_array (w : world) (key : string) : ndarray :=
  default {| nd_shape := []; nd_data := [] |} (stored_data w !! key).

(** The calls of a run of the script started in state [w]. *)
Definition calls_from (w : world) : list call :=
  script_calls (stored_data w) (stored_array w "X") (stored_array w "y")
    (length (heap w)).

(** ** Sample runs *)

(** A library that never fails on its own. *)
Definition never : call -> world -> option exn := fun _ _ => None.

(** A library that runs out of memory while fitting. *)
Definition fit_fails : call -> world -> option exn :=
  fun c _ =>
    match c with
    | Fit _ _ _ _ _ _ _ => Some (Exn "ResourceExhaustedError")
    | _ => None
    end.

(** An interpreter that has no numpy installed. *)
Definition no_numpy : call -> world -> option exn :=
  fun c _ =>
    match c with
    | Import "numpy" => Some (Exn "ModuleNotFoundError")
    | _ => None
    end.

Definition sample_data : gmap string ndarray :=
  <["X" := {| nd_shape := [2; 6; 8]; nd_data := [] |}]>
    (<["y" := {| nd_shape := [2]; nd_data := [] |}]> ∅).

(** A fresh process started in [/repo/training], next to the dataset. *)
Definition sample_world : world :=
  {| files := <[ ["repo"; "training"; "training_data.npz"] := Npz sample_data ]> ∅;
     dirs := list_to_set (ancestors ["repo"; "training"]);
     cwd := ["repo"; "training"];
     modules := ∅;
     heap := [];
     stdout := [];
     trace := [] |}.

(** A TensorFlow of the kind the patch is for: its import reads [np.object]
    and [np.bool], and fails on a numpy that no longer has them. *)
Definition legacy_tensorflow : call -> world -> option exn :=
  fun c w =>
    match c with
    | Import "tensorflow" =>
        match modules w !! "numpy" with
        | Some ns =>
            match ns !! "object", ns !! "bool" with
            | Some _, Some _ => None
            | _, _ => Some (Exn "AttributeError")
            end
        | None => Some (Exn "AttributeError")
        end
    | _ => None
    end.

(** For contrast with the script: a program that catches whatever its body
    raises and carries on. *)
Definition swallow (p : prog unit) : prog unit :=
  TryExcept p (fun _ => Ret tt) (Ret tt).

(** ** The places and objects a run touches *)

Definition dataset_path (w : world) : path := cwd w ++ ["training_data.npz"].
Definition model_path (w : world) : path := cwd w ++ ["trend_model.keras"].
Definition model_dir_path (w : world) : path :=
  parent (cwd w) ++ ["public"; "models"; "trend-cnn"].

(** The model as [keras.Sequential] returns it, and as [compile] leaves it. *)
Definition built_model : model_state :=
  {| m_layers := architecture; m_compiled := None; m_epochs_trained := 0 |}.

Definition compiled_model : model_state :=
  {| m_layers := architecture;
     m_compiled := Some {| optimizer := "adam";
                           loss := "sparse_categorical_crossentropy";
                           metrics := ["accuracy"] |};
     m_epochs_trained := 0 |}.

(** What a successful run prints. *)
Definition printed : list string :=
  map layer_name architecture ++ ["Saved trend_model.keras"].

(** ** More sample states *)

(** The working directory without the dataset. *)
Definition no_dataset_world : world := with_files ∅ sample_world.

(** An archive that holds the windows but not the labels. *)
Definition no_labels_world : world :=
  with_files
    (<[ ["repo"; "training"; "training_data.npz"] :=
          Npz (<["X" := {| nd_shape := [2; 6; 8]; nd_data := [] |}]> ∅) ]> ∅)
    sample_world.

(** Windows of 5 time steps instead of 6. *)
Definition short_window_world : world :=
  with_files
    (<[ ["repo"; "training"; "training_data.npz"] :=
          Npz (<["X" := {| nd_shape := [2; 5; 8]; nd_data := [] |}]>
                 (<["y" := {| nd_shape := [2]; nd_data := [] |}]> ∅)) ]> ∅)
    sample_world.

(** Windows of 5 features instead of 8. *)
Definition narrow_window_world : world :=
  with_files
    (<[ ["repo"; "training"; "training_data.npz"] :=
          Npz (<["X" := {| nd_shape := [2; 6; 5]; nd_data := [] |}]>
                 (<["y" := {| nd_shape := [2]; nd_data := [] |}]> ∅)) ]> ∅)
    sample_world.

(** A directory of the dataset's name where the dataset should be. *)
Definition dataset_dir_world : world :=
  with_dirs (dirs sample_world ∪ {[ ["repo"; "training"; "training_data.npz"] ]})
    (with_files ∅ sample_world).

(** A regular file where the model directory is to go. *)
Definition blocked_world : world :=
  with_files
    (<[ ["repo"; "public"; "models"; "trend-cnn"] := Blob ]> (files sample_world))
    sample_world.

(** A library is quiet when it does not fail on its own: a call then raises
    only what its arguments and the state make it raise. *)
Definition quiet (fault : call -> world -> option exn) : Prop :=
  forall c w, fault c w = None.

(** * Facts about single calls *)

Ltac sem_inv H :=
  simpl in H;
  unfold unit_call, pure_call, set_attr, np_load, getitem, new_model,
    compile_model, summary, fit_model, makedirs, save_model in H;
  repeat case_match; simplify_eq.

Ltac sem_cases c H := destruct c; sem_inv H.

Lemma sem_trace c w r w' : sem c w = inr (r, w') -> trace w' = trace w.
Proof. intros H. sem_cases c H; reflexivity. Qed.

Lemma load_module_patched m w : numpy_patched w -> numpy_patched (load_module m w).
Proof.
  intros (ns & Hns & Ho & Hb). exists ns. split; [| done].
  unfold load_module. simpl. destruct (modules w !! m) eqn:Hm; [done |].
  rewrite lookup_insert_ne; [done | congruence].
Qed.

Section Steps.
Variable fault : call -> world -> option exn.

Lemma step_cases c w :
  (exists e, step fault c w = (inl e, log c (Raised e) w))
  \/ (exists r w', sem c w = inr (r, w')
                   /\ step fault c w = (inr r, log c Returned w')).
Proof.
  unfold step. destruct (if fallible c then fault c w else None) as [e |].
  - left. by exists e.
  - destruct (sem c w) as [e | [r w']].
    + left. by exists e.
    + right. by exists r, w'.
Qed.

Lemma step_trace c w :
  trace (snd (step fault c w)) = trace w ++ [(c, result_of (fst (step fault c w)))].
Proof.
  destruct (step_cases c w) as [(e & ->) | (r & w' & Hsem & ->)]; simpl.
  - reflexivity.
  - by rewrite (sem_trace _ _ _ _ Hsem).
Qed.

(** ** Runs and their traces *)

Lemma run_trace {A} (p : prog A) w :
  exists evs, trace (final fault p w) = trace w ++ evs.
Proof.
  unfold final. revert w.
  induction p as [A a | A c k IH | A body IHb handler IHh k IHk]; intros w; simpl.
  - exists []. by rewrite app_nil_r.
  - pose proof (step_trace c w) as Hs.
    destruct (step fault c w) as [[e | r] w1]; simpl in *.
    + eauto.
    + destruct (IH r w1) as [evs Hevs]. rewrite Hevs, Hs, <- app_assoc. eauto.
  - destruct (IHb w) as [e1 H1].
    destruct (run fault body w) as [[e | []] w1]; simpl in *.
    + destruct (IHh e w1) as [e2 H2].
      destruct (run fault (handler e) w1) as [[e' | []] w2]; simpl in *.
      * rewrite H2, H1, <- app_assoc. eauto.
      * destruct (IHk w2) as [e3 H3]. rewrite H3, H2, H1, <- !app_assoc. eauto.
    + destruct (IHk w1) as [e3 H3]. rewrite H3, H1, <- app_assoc. eauto.
Qed.

Lemma trace_final {A} (p : prog A) w :
  trace (final fault p w) = trace w ++ events fault p w.
Proof.
  unfold events. destruct (run_trace p w) as [evs ->].
  by rewrite drop_app_length.
Qed.

Lemma events_Ret {A} (a : A) w : events fault (Ret a) w = [].
Proof. unfold events, final. simpl. by rewrite drop_all. Qed.

Lemma run_Do {A} c (k : ret_type c -> prog A) w :
  run fault (Do c k) w =
    match fst (step fault c w) with
    | inl e => (inl e, snd (step fault c w))
    | inr r => run fault (k r) (snd (step fault c w))
    end.
Proof. simpl. by destruct (step fault c w) as [[e | r] w1]. Qed.

Lemma events_Do {A} c (k : ret_type c -> prog A) w :
  events fault (Do c k) w =
    (c, result_of (fst (step fault c w)))
      :: match fst (step fault c w) with
         | inl _ => []
         | inr r => events fault (k r) (snd (step fault c w))
         end.
Proof.
  unfold events at 1. unfold final. rewrite run_Do.
  pose proof (step_trace c w) as Hs.
  destruct (step fault c w) as [[e | r] w1]; simpl in *.
  - rewrite Hs. by rewrite drop_app_length.
  - fold (final fault (k r) w1). rewrite trace_final, Hs, <- app_assoc.
    by rewrite drop_app_length.
Qed.
End Steps.

(** ** What a call that returned has done *)


Lemma sem_Import m w r w' :
  sem (Import m) w = inr (r, w') -> w' = load_module m w.
Proof. simpl. by intros [= _ <-]. Qed.

Lemma sem_ImportFrom m n w r w' :
  sem (ImportFrom m n) w = inr (r, w') -> w' = load_module m w.
Proof. simpl. by intros [= _ <-]. Qed.

Lemma sem_NpLoad file w r w' :
  sem (NpLoad file) w = inr (r, w') ->
  w' = w /\ files w !! resolve (cwd w) file = Some (Npz r).
Proof. intros H. sem_inv H. done. Qed.

Lemma sem_GetItem d key w r w' :
  sem (GetItem d key) w = inr (r, w') -> w' = w /\ d !! key = Some r.
Proof. intros H. sem_inv H. done. Qed.

Lemma sem_Sequential ls w r w' :
  sem (Sequential ls) w = inr (r, w') ->
  r = length (heap w)
  /\ w' = with_heap (heap w ++ [{| m_layers := ls; m_compiled := None;
                                   m_epochs_trained := 0 |}]) w.
Proof. intros H. sem_inv H. done. Qed.

Lemma sem_Compile m o l ms w r w' :
  sem (Compile m o l ms) w = inr (r, w') ->
  exists st,
    heap w !! m = Some st
    /\ w' = with_heap
              (<[m := {| m_layers := m_layers st;
                         m_compiled := Some {| optimizer := o; loss := l;
                                               metrics := ms |};
                         m_epochs_trained := m_epochs_trained st |}]> (heap w)) w.
Proof. intros H. sem_inv H. eauto. Qed.

Lemma sem_Summary m w r w' :
  sem (Summary m) w = inr (r, w') ->
  exists st, heap w !! m = Some st
             /\ w' = with_stdout (stdout w ++ map layer_name (m_layers st)) w.
Proof. intros H. sem_inv H. eauto. Qed.

Lemma batch_error_conforms ls X :
  batch_error ls X = None -> conforms ls X = true.
Proof.
  unfold batch_error. destruct (nd_shape X); [done |].
  by destruct (conforms ls X).
Qed.

Lemma sem_Fit m X y epochs bs vs vb w r w' :
  sem (Fit m X y epochs bs vs vb) w = inr (r, w') ->
  exists st,
    heap w !! m = Some st
    /\ is_Some (m_compiled st)
    /\ conforms (m_layers st) X = true
    /\ r = {| epoch := seq 0 epochs |}
    /\ w' = with_heap
              (<[m := {| m_layers := m_layers st;
                         m_compiled := m_compiled st;
                         m_epochs_trained := m_epochs_trained st + epochs |}]>
                 (heap w)) w.
Proof.
  intros H. sem_inv H.
  eexists. split; [done |]. split; [by eexists |].
  split; [by apply batch_error_conforms |].
  split; congruence.
Qed.

Lemma sem_Makedirs name exist_ok w r w' :
  sem (Makedirs name exist_ok) w = inr (r, w') ->
  files w !! resolve (cwd w) name = None
  /\ w' = with_dirs (dirs w ∪ list_to_set (ancestors (resolve (cwd w) name))) w.
Proof. intros H. sem_inv H. done. Qed.

Lemma sem_Save m filepath w r w' :
  sem (Save m filepath) w = inr (r, w') ->
  exists st, heap w !! m = Some st
             /\ w' = with_files (<[resolve (cwd w) filepath := KerasArchive st]>
                                   (files w)) w.
Proof. intros H. sem_inv H. eauto. Qed.

Lemma sem_Print s w r w' :
  sem (Print s) w = inr (r, w') -> w' = with_stdout (stdout w ++ [s]) w.
Proof. simpl. by intros [= _ <-]. Qed.

(** * Every run of the script *)

Lemma lookup_fresh {A} (l : list A) (x : A) : (l ++ [x]) !! length l = Some x.
Proof. by apply list_lookup_middle. Qed.

Lemma insert_fresh {A} (l : list A) (x y : A) : <[length l := y]> (l ++ [x]) = l ++ [y].
Proof.
  replace (length l) with (length l + 0) by lia.
  by rewrite insert_app_r.
Qed.

Lemma stored_data_spec w d :
  files w !! resolve (cwd w) "training_data.npz" = Some (Npz d) -> stored_data w = d.
Proof. intros H. unfold stored_data. by rewrite H. Qed.

Lemma stored_array_spec w key a :
  stored_data w !! key = Some a -> stored_array w key = a.
Proof. intros H. unfold stored_array. by rewrite H. Qed.

Section Script.
Variable fault : call -> world -> option exn.

Lemma step_SetAttr m a v ns w :
  modules w !! m = Some ns ->
  step fault (SetAttr m a v) w
  = (inr tt, log (SetAttr m a v) Returned
               (with_modules (<[m := <[a := v]> ns]> (modules w)) w)).
Proof. intros H. unfold step. simpl. unfold set_attr. by rewrite H. Qed.

Lemma load_module_lookup m w :
  modules (load_module m w) !! m = Some (default ∅ (modules w !! m)).
Proof.
  unfold load_module. simpl. destruct (modules w !! m) eqn:H; simpl; [done |].
  by rewrite lookup_insert_eq.
Qed.

Lemma log_patched c r w : numpy_patched w -> numpy_patched (log c r w).
Proof. intros (ns & ? & ? & ?). by exists ns. Qed.

Lemma with_heap_patched h w : numpy_patched w -> numpy_patched (with_heap h w).
Proof. intros (ns & ? & ? & ?). by exists ns. Qed.

Lemma with_files_patched f w : numpy_patched w -> numpy_patched (with_files f w).
Proof. intros (ns & ? & ? & ?). by exists ns. Qed.

Lemma with_dirs_patched d w : numpy_patched w -> numpy_patched (with_dirs d w).
Proof. intros (ns & ? & ? & ?). by exists ns. Qed.

Lemma with_stdout_patched o w : numpy_patched w -> numpy_patched (with_stdout o w).
Proof. intros (ns & ? & ? & ?). by exists ns. Qed.

Lemma patched_now ns M w :
  numpy_patched
    (with_modules
       (<["numpy" := <["bool" := Builtin "bool"]>
                       (<["object" := Builtin "object"]> ns)]> M) w).
Proof.
  eexists. split; [apply lookup_insert_eq |]. split.
  - rewrite lookup_insert_ne by done. apply lookup_insert_eq.
  - apply lookup_insert_eq.
Qed.

Ltac patched :=
  repeat match goal with
    | |- numpy_patched (log _ _ _) => apply log_patched
    | |- numpy_patched (load_module _ _) => apply load_module_patched
    | |- numpy_patched (with_heap _ _) => apply with_heap_patched
    | |- numpy_patched (with_files _ _) => apply with_files_patched
    | |- numpy_patched (with_dirs _ _) => apply with_dirs_patched
    | |- numpy_patched (with_stdout _ _) => apply with_stdout_patched
    end;
  apply patched_now.

Ltac exec HR :=
  rewrite run_Do in HR;
  match type of HR with
  | context [step ?f ?c ?w] =>
      let Hs := fresh "Hs" in
      destruct (step_cases f c w) as [(?e & Hs) | (?r & ?w' & ?Hsem & Hs)];
      rewrite Hs in HR; clear Hs; cbn [fst snd] in HR
  end.

Ltac fields :=
  cbn [fst snd files dirs cwd modules heap stdout trace log with_modules
         with_heap with_files with_dirs with_stdout load_module].

Ltac fields_in H :=
  cbn [fst snd files dirs cwd modules heap stdout trace log with_modules
         with_heap with_files with_dirs with_stdout load_module] in H.

Ltac fail_at HR n :=
  rewrite HR; right; eexists n, _, _;
  split; [reflexivity |];
  split; [split; [lia | split; [lia | intros ?; first [lia | assumption]]] |];
  split; [reflexivity |];
  split; [fields; rewrite <- ?app_assoc; rewrite drop_app_length; reflexivity |];
  split; [intros ?; first [lia | cbn [snd]; patched] | intros ?; first [lia | reflexivity]].

Lemma script_run w :
  (outcome fault script w = inr tt
   /\ events fault script w = map returned (calls_from w)
   /\ numpy_patched (final fault script w)
   /\ files (final fault script w)
      = <[resolve (cwd w) "trend_model.keras" := KerasArchive trained_model]> (files w)
   /\ dirs (final fault script w)
      = dirs w ∪ list_to_set (ancestors (resolve (cwd w) model_dir))
   /\ heap (final fault script w) = heap w ++ [trained_model]
   /\ conforms architecture (stored_array w "X") = true)
  \/ (exists n c e,
        calls_from w !! n = Some c
        /\ (n <> 1 /\ n <> 2
            /\ (13 < n -> conforms architecture (stored_array w "X") = true))
        /\ outcome fault script w = inl e
        /\ events fault script w = map returned (take n (calls_from w)) ++ [(c, Raised e)]
        /\ (0 < n -> numpy_patched (final fault script w))
        /\ (n < 15 -> files (final fault script w) = files w)).
Proof.
  unfold outcome, events, final.
  remember (run fault script w) as R eqn:HR.
  unfold script, perform in HR. cbn [mbind prog_bind bind] in HR.
  exec HR; [fail_at HR 0 |].
  apply sem_Import in Hsem. subst w'.
  rewrite run_Do in HR.
  erewrite step_SetAttr in HR by (cbn [modules log]; apply load_module_lookup).
  cbn [fst snd] in HR.
  rewrite run_Do in HR.
  erewrite step_SetAttr in HR
    by (cbn [modules log with_modules]; apply lookup_insert_eq).
  cbn [fst snd] in HR.
  exec HR; [fail_at HR 3 |].
  apply sem_Import in Hsem. subst w'.
  exec HR; [fail_at HR 4 |].
  apply sem_ImportFrom in Hsem. subst w'.
  exec HR; [fail_at HR 5 |].
  apply sem_ImportFrom in Hsem. subst w'.
  exec HR; [fail_at HR 6 |].
  apply sem_Import in Hsem. subst w'.
  exec HR; [fail_at HR 7 |].
  apply sem_NpLoad in Hsem. destruct Hsem as [-> Hdata].
  fields_in Hdata. apply stored_data_spec in Hdata. subst r4.
  exec HR; [fail_at HR 8 |].
  apply sem_GetItem in Hsem. destruct Hsem as [-> HX].
  apply stored_array_spec in HX. subst r4.
  exec HR; [fail_at HR 9 |].
  apply sem_GetItem in Hsem. destruct Hsem as [-> Hy].
  apply stored_array_spec in Hy. subst r4.
  exec HR; [fail_at HR 10 |].
  apply sem_Sequential in Hsem. destruct Hsem as [Hm ->].
  fields_in Hm. subst r4. fields_in HR.
  exec HR; [fail_at HR 11 |].
  apply sem_Compile in Hsem. destruct Hsem as (st & Hst & ->).
  fields_in Hst. rewrite lookup_fresh in Hst. injection Hst as <-.
  fields_in HR. rewrite insert_fresh in HR. cbn [m_layers m_epochs_trained] in HR.
  exec HR; [fail_at HR 12 |].
  apply sem_Summary in Hsem. destruct Hsem as (st & Hst & ->).
  fields_in Hst. rewrite lookup_fresh in Hst. injection Hst as <-.
  fields_in HR.
  exec HR; [fail_at HR 13 |].
  apply sem_Fit in Hsem. destruct Hsem as (st & Hst & _ & Hconf & _ & ->).
  fields_in Hst. rewrite lookup_fresh in Hst. injection Hst as <-.
  cbn [m_layers] in Hconf.
  fields_in HR. rewrite insert_fresh in HR.
  cbn [m_layers m_epochs_trained m_compiled Nat.add] in HR.
  exec HR; [fail_at HR 14 |].
  apply sem_Makedirs in Hsem. destruct Hsem as (_ & ->). fields_in HR.
  exec HR; [fail_at HR 15 |].
  apply sem_Save in Hsem. destruct Hsem as (st & Hst & ->).
  fields_in Hst. rewrite lookup_fresh in Hst. injection Hst as <-.
  fields_in HR.
  exec HR; [fail_at HR 16 |].
  apply sem_Print in Hsem. subst w'.
  simpl run in HR. rewrite HR. left.
  match goal with u : ret_type (Print _) |- _ => destruct u end.
  split; [reflexivity |].
  split; [fields; rewrite <- ?app_assoc; rewrite drop_app_length; reflexivity |].
  split; [cbn [snd]; patched |].
  fields.
  split; [reflexivity |]. split; [reflexivity |]. split; [reflexivity |].
  exact Hconf.
Qed.

Lemma script_events_sub w :
  Forall (fun ev => In (fst ev) (calls_from w)) (events fault script w).
Proof.
  destruct (script_run w) as [(_ & -> & _) | (n & c & e & Hc & _ & _ & -> & _)].
  - apply List.Forall_forall. intros ev Hev. apply in_map_iff in Hev.
    destruct Hev as (c & <- & Hc). exact Hc.
  - apply Forall_app. split.
    + apply List.Forall_forall. intros ev Hev. apply in_map_iff in Hev.
      destruct Hev as (c' & <- & Hc'). unfold returned. cbn [fst].
      apply list_elem_of_In. apply list_elem_of_In in Hc'.
      eapply subseteq_take. exact Hc'.
    + constructor; [| constructor]. cbn [fst].
      apply list_elem_of_In. eapply list_elem_of_lookup_2. exact Hc.
Qed.

Lemma handler_free_script : handler_free script.
Proof.
  unfold script, perform. cbn [mbind prog_bind bind].
  repeat (constructor; intros).
Qed.

Lemma handler_free_raise {A : Type} (p : prog A) :
  handler_free p ->
  forall w c e,
    In (c, Raised e) (events fault p w) ->
    outcome fault p w = inl e /\ last (events fault p w) = Some (c, Raised e).
Proof.
  induction 1 as [a | c0 k Hk IH]; intros w c e Hin.
  - rewrite events_Ret in Hin. destruct Hin.
  - rewrite events_Do in Hin. rewrite events_Do.
    unfold outcome in *. rewrite run_Do.
    destruct (fst (step fault c0 w)) as [e0 | r] eqn:Hstep; simpl in *.
    + destruct Hin as [[= <- <-] | []]. done.
    + destruct Hin as [[=] | Hin].
      destruct (IH r _ _ _ Hin) as [Hout Hlast]. split; [exact Hout |].
      destruct (events fault (k r) (step fault c0 w).2); [destruct Hin | exact Hlast].
Qed.
End Script.

(** * The claims about a run *)

Lemma resolve_model_file cwd :
  resolve cwd "trend_model.keras" = cwd ++ ["trend_model.keras"].
Proof. reflexivity. Qed.

Lemma resolve_model_dir cwd :
  resolve cwd model_dir = parent cwd ++ ["public"; "models"; "trend-cnn"].
Proof.
  unfold resolve, parent.
  change (split_slash model_dir "") with [".."; "public"; "models"; "trend-cnn"].
  change (is_absolute model_dir) with false. cbn [fold_left].
  change (removelast cwd ++ ["public"; "models"; "trend-cnn"])
    with (removelast cwd ++ ["public"] ++ ["models"] ++ ["trend-cnn"]).
  rewrite !app_assoc. reflexivity.
Qed.

(** C3: on every successful run the script loads the dataset (the arrays X and
    y of training_data.npz), constructs the model, compiles it, fits it and
    saves it, each once and in this order. *)
Theorem run_steps_in_order fault w :
  outcome fault script w = inr tt ->
  events fault script w
  = map returned
      (script_calls (stored_data w) (stored_array w "X") (stored_array w "y")
         (length (heap w)))
  /\ stages (events fault script w)
     = [LoadData; Construct; CompileModel; FitModel; SaveModel].
Proof.
  intros Hok.
  destruct (script_run fault w) as [(_ & Hev & _) | (n & c & e & _ & _ & Hout & _)];
    [| congruence].
  split; [exact Hev |]. rewrite Hev. reflexivity.
Qed.

Lemma run_steps_in_order_witness :
  outcome never script sample_world = inr tt
  /\ stages (events never script sample_world)
     = [LoadData; Construct; CompileModel; FitModel; SaveModel].
Proof.
  split; [vm_compute; reflexivity |].
  apply (run_steps_in_order never sample_world). vm_compute. reflexivity.
Defined.

(** C4: whatever the state and the library do, the model is compiled with
    optimizer 'adam', loss 'sparse_categorical_crossentropy' and the single
    metric 'accuracy'; a successful run compiles once, and leaves the model
    with that configuration. *)
Theorem compile_arguments_fixed fault w :
  Forall (fun ev =>
            compile_args (fst ev) = None
            \/ compile_args (fst ev)
               = Some ("adam", "sparse_categorical_crossentropy", ["accuracy"]))
         (events fault script w)
  /\ (outcome fault script w = inr tt ->
      omap (fun ev => compile_args (fst ev)) (events fault script w)
      = [("adam", "sparse_categorical_crossentropy", ["accuracy"])]
      /\ (m_compiled <$> heap (final fault script w) !! length (heap w))
         = Some (Some {| optimizer := "adam";
                         loss := "sparse_categorical_crossentropy";
                         metrics := ["accuracy"] |})).
Proof.
  split.
  - eapply Forall_impl; [apply script_events_sub |].
    intros [c r] Hc. cbn [fst] in *. unfold calls_from, script_calls in Hc.
    simpl in Hc. intuition (subst; simpl; auto).
  - intros Hok.
    destruct (script_run fault w)
      as [(_ & Hev & _ & _ & _ & Hheap & _) | (n & c & e & _ & _ & Hout & _)];
      [| congruence].
    rewrite Hev, Hheap. split; [reflexivity |]. by rewrite lookup_fresh.
Qed.

Lemma compile_arguments_fixed_witness :
  omap (fun ev => compile_args (fst ev)) (events never script sample_world)
  = [("adam", "sparse_categorical_crossentropy", ["accuracy"])].
Proof.
  apply (proj2 (compile_arguments_fixed never sample_world)).
  vm_compute. reflexivity.
Defined.

(** C5: whatever the state and the library do, [model.fit] is called with
    epochs=20, batch_size=32 and validation_split=0.2; a successful run fits
    once, and leaves the model trained for 20 epochs. *)
Theorem fit_arguments_fixed fault w :
  Forall (fun ev =>
            fit_args (fst ev) = None \/ fit_args (fst ev) = Some (20, 32, 0.2%Q))
         (events fault script w)
  /\ (outcome fault script w = inr tt ->
      omap (fun ev => fit_args (fst ev)) (events fault script w) = [(20, 32, 0.2%Q)]
      /\ (m_epochs_trained <$> heap (final fault script w) !! length (heap w))
         = Some 20).
Proof.
  split.
  - eapply Forall_impl; [apply script_events_sub |].
    intros [c r] Hc. cbn [fst] in *. unfold calls_from, script_calls in Hc.
    simpl in Hc. intuition (subst; simpl; auto).
  - intros Hok.
    destruct (script_run fault w)
      as [(_ & Hev & _ & _ & _ & Hheap & _) | (n & c & e & _ & _ & Hout & _)];
      [| congruence].
    rewrite Hev, Hheap. split; [reflexivity |]. by rewrite lookup_fresh.
Qed.

Lemma fit_arguments_fixed_witness :
  omap (fun ev => fit_args (fst ev)) (events never script sample_world)
  = [(20, 32, 0.2%Q)].
Proof.
  apply (proj2 (fit_arguments_fixed never sample_world)).
  vm_compute. reflexivity.
Defined.

(** C7: the script has no exception handler: whichever call raises, and
    whatever it raises, the run ends there with that exception uncaught. *)
Theorem exceptions_propagate fault w c e :
  In (c, Raised e) (events fault script w) ->
  handler_free script
  /\ outcome fault script w = inl e
  /\ last (events fault script w) = Some (c, Raised e).
Proof.
  intros Hin. split; [apply handler_free_script |].
  exact (handler_free_raise fault script handler_free_script w c e Hin).
Qed.

Lemma exceptions_propagate_witness :
  outcome fit_fails script sample_world = inl (Exn "ResourceExhaustedError").
Proof.
  refine (proj1 (proj2 (exceptions_propagate fit_fails sample_world
    (Fit 0 {| nd_shape := [2; 6; 8]; nd_data := [] |}
           {| nd_shape := [2]; nd_data := [] |} 20 32 0.2 1)
    (Exn "ResourceExhaustedError") _))).
  vm_compute. do 13 right. left. reflexivity.
Defined.

Lemma raised_is_failing_call fault w c e :
  In (c, Raised e) (events fault script w) ->
  exists n, calls_from w !! n = Some c
            /\ outcome fault script w = inl e
            /\ events fault script w
               = map returned (take n (calls_from w)) ++ [(c, Raised e)]
            /\ (n < 15 -> files (final fault script w) = files w).
Proof.
  intros Hin.
  destruct (script_run fault w)
    as [(_ & Hev & _) | (n & c' & e' & Hc & _ & Hout & Hev & _ & Hfiles)].
  - rewrite Hev in Hin. apply in_map_iff in Hin. by destruct Hin as (? & [=] & _).
  - rewrite Hev in Hin. apply in_app_or in Hin. destruct Hin as [Hin | Hin].
    + apply in_map_iff in Hin. by destruct Hin as (? & [=] & _).
    + destruct Hin as [[= <- <-] | []]. by exists n.
Qed.

(** C8: if a step before the save raises, no file is written at all; and the
    file store changes only in a run in which fit has returned. *)
Theorem no_model_file_unless_fitted fault w :
  (forall c e,
      In (c, Raised e) (events fault script w) ->
      before_save c = true ->
      files (final fault script w) = files w
      /\ forall m f r, ~ In (Save m f, r) (events fault script w))
  /\ (files (final fault script w) <> files w ->
      In (returned (Fit (length (heap w)) (stored_array w "X")
                      (stored_array w "y") 20 32 0.2 1))
         (events fault script w)).
Proof.
  split.
  - intros c e Hin Hbefore.
    destruct (raised_is_failing_call fault w c e Hin)
      as (n & Hc & _ & Hev & Hfiles).
    assert (n < 15) as Hn.
    { pose proof (lookup_lt_Some _ _ _ Hc) as Hlt.
      change (length (calls_from w)) with 17 in Hlt.
      destruct (decide (n < 15)) as [| Hge]; [done |].
      assert (n = 15 \/ n = 16) as [-> | ->] by lia;
        cbn in Hc; injection Hc as <-; discriminate. }
    split; [by apply Hfiles |].
    intros m f r Hsave. rewrite Hev in Hsave.
    apply in_app_or in Hsave. destruct Hsave as [Hsave | [[= -> _] | []]];
      [| discriminate].
    apply in_map_iff in Hsave. destruct Hsave as (c' & [= Hc'eq _] & Hc').
    subst c'.
    apply list_elem_of_In, list_elem_of_lookup in Hc'. destruct Hc' as [i Hi].
    apply lookup_take_Some in Hi. destruct Hi as [Hi Hlt].
    assert (i < 15) as Hi15 by lia. clear - Hi Hi15.
    do 15 (destruct i as [| i]; [discriminate |]). lia.
  - intros Hchanged.
    destruct (script_run fault w)
      as [(_ & Hev & _) | (n & c & e & Hc & _ & _ & Hev & _ & Hfiles)].
    + rewrite Hev. unfold calls_from, script_calls. simpl. tauto.
    + pose proof (lookup_lt_Some _ _ _ Hc) as Hlt.
      change (length (calls_from w)) with 17 in Hlt.
      destruct (decide (n < 15)) as [Hn | Hge]; [by destruct Hchanged; apply Hfiles |].
      rewrite Hev. apply in_or_app. left.
      assert (n = 15 \/ n = 16) as [-> | ->] by lia;
        unfold calls_from, script_calls; simpl; tauto.
Qed.

Lemma no_model_file_unless_fitted_witness :
  files (final fit_fails script sample_world) = files sample_world.
Proof.
  refine (proj1 (proj1 (no_model_file_unless_fitted fit_fails sample_world)
    (Fit 0 {| nd_shape := [2; 6; 8]; nd_data := [] |}
           {| nd_shape := [2]; nd_data := [] |} 20 32 0.2 1)
    (Exn "ResourceExhaustedError") _ eq_refl)).
  vm_compute. do 13 right. left. reflexivity.
Defined.

Lemma model_file_outside_model_dir cwd p :
  parent cwd ++ ["public"; "models"; "trend-cnn"] `prefix_of` p ->
  p <> cwd ++ ["trend_model.keras"].
Proof.
  intros Hpre ->. apply prefix_length in Hpre.
  unfold parent in Hpre.
  rewrite !length_app, removelast_firstn_len, length_take in Hpre.
  simpl in Hpre. lia.
Qed.

(** C9: a successful run creates ../public/models/trend-cnn with
    exist_ok=True, keeps every directory that was there, and writes one file
    only, trend_model.keras in the working directory: nothing at or below the
    directory it has made changes. *)
Theorem model_dir_made_and_left_alone fault w :
  outcome fault script w = inr tt ->
  In (returned (Makedirs model_dir true)) (events fault script w)
  /\ parent (cwd w) ++ ["public"; "models"; "trend-cnn"] ∈ dirs (final fault script w)
  /\ dirs w ⊆ dirs (final fault script w)
  /\ files (final fault script w)
     = <[cwd w ++ ["trend_model.keras"] := KerasArchive trained_model]> (files w)
  /\ (forall p,
        parent (cwd w) ++ ["public"; "models"; "trend-cnn"] `prefix_of` p ->
        files (final fault script w) !! p = files w !! p).
Proof.
  intros Hok.
  destruct (script_run fault w)
    as [(_ & Hev & _ & Hfiles & Hdirs & _) | (n & c & e & _ & _ & Hout & _)];
    [| congruence].
  rewrite resolve_model_file in Hfiles. rewrite resolve_model_dir in Hdirs.
  split; [rewrite Hev; unfold calls_from, script_calls; simpl; tauto |].
  split.
  { rewrite Hdirs. apply elem_of_union_r, elem_of_list_to_set.
    generalize (parent (cwd w) ++ ["public"; "models"; "trend-cnn"]).
    intros p. induction p as [| c p IH]; simpl.
    - apply list_elem_of_here.
    - apply list_elem_of_further, list_elem_of_In, in_map, list_elem_of_In, IH. }
  split; [rewrite Hdirs; apply union_subseteq_l |].
  split; [exact Hfiles |].
  intros p Hp. rewrite Hfiles. apply lookup_insert_ne.
  intros Heq. by apply (model_file_outside_model_dir _ _ Hp).
Qed.

Lemma model_dir_made_and_left_alone_witness :
  ["repo"; "public"; "models"; "trend-cnn"] ∈ dirs (final never script sample_world)
  /\ files (final never script sample_world)
       !! ["repo"; "public"; "models"; "trend-cnn"; "model.json"] = None.
Proof.
  pose proof (model_dir_made_and_left_alone never sample_world eq_refl)
    as (_ & Hdir & _ & _ & Hleft).
  split; [exact Hdir |].
  rewrite (Hleft ["repo"; "public"; "models"; "trend-cnn"; "model.json"]).
  - reflexivity.
  - by exists ["model.json"].
Defined.

(** C10: in every run the import of numpy comes first; once it has returned,
    the next two things the script does, before any other import or call, are
    to set np.object to the builtin object and np.bool to the builtin bool,
    under no condition, and the process-wide numpy namespace keeps both to the
    end of the run, however the run ends. *)
Theorem numpy_patched_first fault w :
  (exists r, head (events fault script w) = Some (Import "numpy", r))
  /\ (In (returned (Import "numpy")) (events fault script w) ->
      (exists rest,
          events fault script w
          = returned (Import "numpy")
              :: returned (SetAttr "numpy" "object" (Builtin "object"))
              :: returned (SetAttr "numpy" "bool" (Builtin "bool"))
              :: rest)
      /\ numpy_patched (final fault script w)).
Proof.
  destruct (script_run fault w)
    as [(_ & Hev & Hpat & _) | (n & c & e & Hc & (Hn1 & Hn2 & _) & _ & Hev & Hpat & _)].
  - rewrite Hev. split; [by eexists |]. intros _. split; [by eexists | exact Hpat].
  - rewrite Hev. destruct n as [| [| [| n]]]; try done.
    + cbn in Hc. injection Hc as <-. split; [by eexists |].
      intros [[=] | []].
    + split; [by eexists |]. intros _. split; [by eexists |]. apply Hpat. lia.
Qed.

Lemma numpy_patched_first_witness :
  numpy_patched (final fit_fails script sample_world).
Proof.
  apply (proj2 (numpy_patched_first fit_fails sample_world)).
  vm_compute. left. reflexivity.
Defined.

(** Without numpy the run ends at its first line, and nothing is patched. *)
Example run_without_numpy :
  events no_numpy script sample_world
  = [(Import "numpy", Raised (Exn "ModuleNotFoundError"))]
  /\ modules (final no_numpy script sample_world) !! "numpy" = None.
Proof. split; reflexivity. Qed.

(** A second run, in the state the first has left, succeeds too: the
    directory is there already, and the model file is written over. *)
Example second_run_succeeds :
  outcome never script (final never script sample_world) = inr tt.
Proof. vm_compute. reflexivity. Qed.

(** * The script at work *)

(** The model ends in a dense layer of 3 units with softmax activation, and
    what it returns for an example is a vector of 3 numbers. *)
Example output_layer :
  last architecture = Some (Dense 3 Softmax)
  /\ model_output_shape architecture = Some [3].
Proof. split; reflexivity. Qed.

(** The patch is in place by the time TensorFlow is imported. *)
Example legacy_tensorflow_imports :
  outcome legacy_tensorflow script sample_world = inr tt.
Proof. vm_compute. reflexivity. Qed.

(** Under a handler the failure of fit would not end the run. *)
Example handler_catches :
  outcome fit_fails (swallow script) sample_world = inr tt.
Proof. vm_compute. reflexivity. Qed.

(** * The state a run leaves *)

Lemma resolve_dataset cwd :
  resolve cwd "training_data.npz" = cwd ++ ["training_data.npz"].
Proof. reflexivity. Qed.

Section State.
Variable fault : call -> world -> option exn.

Ltac exec HR :=
  rewrite run_Do in HR;
  match type of HR with
  | context [step ?f ?c ?w] =>
      let Hs := fresh "Hs" in
      destruct (step_cases f c w) as [(?e & Hs) | (?r & ?w' & ?Hsem & Hs)];
      rewrite Hs in HR; clear Hs; cbn [fst snd] in HR
  end.

Ltac fields :=
  cbn [fst snd files dirs cwd modules heap stdout trace log with_modules
         with_heap with_files with_dirs with_stdout load_module].

Ltac fields_in H :=
  cbn [fst snd files dirs cwd modules heap stdout trace log with_modules
         with_heap with_files with_dirs with_stdout load_module] in H.

Ltac facts :=
  repeat match goal with |- _ /\ _ => split end;
  intros;
  first [ lia
        | assumption
        | reflexivity
        | fields; rewrite <- ?app_assoc; reflexivity ].

Ltac stop_at HR n :=
  rewrite HR; exists n; split;
  [ right; eexists _, _; split; [reflexivity |]; split; [reflexivity |];
    fields; rewrite <- ?app_assoc; rewrite drop_app_length; reflexivity |];
  split; [reflexivity |];
  facts.

Lemma script_run_state w :
  exists n,
    ((n = 17 /\ outcome fault script w = inr tt
      /\ events fault script w = map returned (calls_from w))
     \/ (exists c e,
           calls_from w !! n = Some c
           /\ outcome fault script w = inl e
           /\ events fault script w
              = map returned (take n (calls_from w)) ++ [(c, Raised e)]))
    /\ cwd (final fault script w) = cwd w
    /\ (n <= 15 -> files (final fault script w) = files w)
    /\ (15 < n -> files (final fault script w)
                  = <[resolve (cwd w) "trend_model.keras" := KerasArchive trained_model]>
                      (files w))
    /\ (n <= 14 -> dirs (final fault script w) = dirs w)
    /\ (14 < n -> dirs (final fault script w)
                  = dirs w ∪ list_to_set (ancestors (resolve (cwd w) model_dir)))
    /\ (n <= 10 -> heap (final fault script w) = heap w)
    /\ (n = 11 -> heap (final fault script w) = heap w ++ [built_model])
    /\ (n = 12 \/ n = 13 -> heap (final fault script w) = heap w ++ [compiled_model])
    /\ (13 < n -> heap (final fault script w) = heap w ++ [trained_model])
    /\ (n <= 12 -> stdout (final fault script w) = stdout w)
    /\ (12 < n -> n <= 16 ->
        stdout (final fault script w) = stdout w ++ map layer_name architecture)
    /\ (16 < n -> stdout (final fault script w) = stdout w ++ printed)
    /\ (7 < n -> files w !! resolve (cwd w) "training_data.npz"
                 = Some (Npz (stored_data w)))
    /\ (8 < n -> stored_data w !! "X" = Some (stored_array w "X"))
    /\ (9 < n -> stored_data w !! "y" = Some (stored_array w "y"))
    /\ (13 < n -> conforms architecture (stored_array w "X") = true)
    /\ (14 < n -> files w !! resolve (cwd w) model_dir = None).
Proof.
  unfold outcome, events, final.
  remember (run fault script w) as R eqn:HR.
  unfold script, perform in HR. cbn [mbind prog_bind bind] in HR.
  exec HR; [stop_at HR 0 |].
  apply sem_Import in Hsem. subst w'.
  rewrite run_Do in HR.
  erewrite step_SetAttr in HR by (cbn [modules log]; apply load_module_lookup).
  cbn [fst snd] in HR.
  rewrite run_Do in HR.
  erewrite step_SetAttr in HR
    by (cbn [modules log with_modules]; apply lookup_insert_eq).
  cbn [fst snd] in HR.
  exec HR; [stop_at HR 3 |].
  apply sem_Import in Hsem. subst w'.
  exec HR; [stop_at HR 4 |].
  apply sem_ImportFrom in Hsem. subst w'.
  exec HR; [stop_at HR 5 |].
  apply sem_ImportFrom in Hsem. subst w'.
  exec HR; [stop_at HR 6 |].
  apply sem_Import in Hsem. subst w'.
  exec HR; [stop_at HR 7 |].
  apply sem_NpLoad in Hsem. destruct Hsem as [-> Hdata].
  fields_in Hdata. pose proof (stored_data_spec _ _ Hdata) as Hsd. subst r4.
  exec HR; [stop_at HR 8 |].
  apply sem_GetItem in Hsem. destruct Hsem as [-> HX].
  pose proof (stored_array_spec _ _ _ HX) as Hsx. subst r4.
  exec HR; [stop_at HR 9 |].
  apply sem_GetItem in Hsem. destruct Hsem as [-> Hy].
  pose proof (stored_array_spec _ _ _ Hy) as Hsy. subst r4.
  exec HR; [stop_at HR 10 |].
  apply sem_Sequential in Hsem. destruct Hsem as [Hm ->].
  fields_in Hm. subst r4. fields_in HR.
  exec HR; [stop_at HR 11 |].
  apply sem_Compile in Hsem. destruct Hsem as (st & Hst & ->).
  fields_in Hst. rewrite lookup_fresh in Hst. injection Hst as <-.
  fields_in HR. rewrite insert_fresh in HR. cbn [m_layers m_epochs_trained] in HR.
  exec HR; [stop_at HR 12 |].
  apply sem_Summary in Hsem. destruct Hsem as (st & Hst & ->).
  fields_in Hst. rewrite lookup_fresh in Hst. injection Hst as <-.
  fields_in HR.
  exec HR; [stop_at HR 13 |].
  apply sem_Fit in Hsem. destruct Hsem as (st & Hst & _ & Hconf & _ & ->).
  fields_in Hst. rewrite lookup_fresh in Hst. injection Hst as <-.
  cbn [m_layers] in Hconf.
  fields_in HR. rewrite insert_fresh in HR.
  cbn [m_layers m_epochs_trained m_compiled Nat.add] in HR.
  exec HR; [stop_at HR 14 |].
  apply sem_Makedirs in Hsem. destruct Hsem as (Hdir & ->).
  fields_in Hdir. fields_in HR.
  exec HR; [stop_at HR 15 |].
  apply sem_Save in Hsem. destruct Hsem as (st & Hst & ->).
  fields_in Hst. rewrite lookup_fresh in Hst. injection Hst as <-.
  fields_in HR.
  exec HR; [stop_at HR 16 |].
  apply sem_Print in Hsem. subst w'.
  simpl run in HR. rewrite HR. exists 17.
  match goal with u : ret_type (Print _) |- _ => destruct u end.
  split.
  { left. split; [reflexivity |]. split; [reflexivity |].
    fields. rewrite <- ?app_assoc. rewrite drop_app_length. reflexivity. }
  split; [reflexivity |].
  facts.
Qed.
End State.

(** * Runs against a quiet library *)

Lemma buildable_architecture : buildable architecture = true.
Proof. reflexivity. Qed.

Lemma sem_NpLoad_err file w e :
  sem (NpLoad file) w = inl e ->
  (files w !! resolve (cwd w) file = None
   /\ e = Exn (if bool_decide (resolve (cwd w) file ∈ dirs w)
               then "IsADirectoryError" else "FileNotFoundError"))
  \/ (exists c, files w !! resolve (cwd w) file = Some c
                /\ (forall d, c <> Npz d) /\ e = Exn "ValueError").
Proof.
  simpl. unfold pure_call, np_load. cbv zeta.
  destruct (files w !! resolve (cwd w) file) as [[d | st |] |]; intros [= <-].
  - right. eexists. by repeat split.
  - right. eexists. by repeat split.
  - by left.
Qed.

Lemma sem_GetItem_err d key w e :
  sem (GetItem d key) w = inl e -> d !! key = None /\ e = Exn "KeyError".
Proof.
  simpl. unfold pure_call, getitem. destruct (d !! key); intros [= <-]. done.
Qed.

Lemma sem_Sequential_err ls w e :
  buildable ls = true -> sem (Sequential ls) w = inl e -> False.
Proof. simpl. unfold new_model. by intros ->. Qed.

Lemma sem_Compile_err m o l ms st w e :
  heap w !! m = Some st -> sem (Compile m o l ms) w = inl e -> False.
Proof. simpl. unfold unit_call, compile_model. by intros ->. Qed.

Lemma sem_Summary_err m st w e :
  heap w !! m = Some st -> sem (Summary m) w = inl e -> False.
Proof. simpl. unfold unit_call, summary. by intros ->. Qed.

Lemma sem_Fit_err m X y epochs bs vs vb st cfg w e :
  heap w !! m = Some st -> m_compiled st = Some cfg ->
  sem (Fit m X y epochs bs vs vb) w = inl e ->
  batch_error (m_layers st) X = Some e.
Proof.
  simpl. unfold fit_model. intros -> ->.
  destruct (batch_error (m_layers st) X); intros [= <-]. done.
Qed.

Lemma sem_Fit_ok m X y epochs bs vs vb w r w' :
  sem (Fit m X y epochs bs vs vb) w = inr (r, w') ->
  forall st, heap w !! m = Some st -> batch_error (m_layers st) X = None.
Proof.
  simpl. unfold fit_model. intros H st Hst. rewrite Hst in H.
  destruct (m_compiled st); [| discriminate].
  by destruct (batch_error (m_layers st) X).
Qed.

Lemma sem_Makedirs_err name w e :
  sem (Makedirs name true) w = inl e ->
  is_Some (files w !! resolve (cwd w) name) /\ e = Exn "FileExistsError".
Proof.
  simpl. unfold unit_call, makedirs. cbv zeta.
  destruct (files w !! resolve (cwd w) name); [by intros [= <-] |].
  by rewrite andb_false_r.
Qed.

Lemma sem_Save_err m filepath st w e :
  heap w !! m = Some st -> sem (Save m filepath) w = inl e -> False.
Proof. simpl. unfold unit_call, save_model. by intros ->. Qed.

Section Quiet.
Variable fault : call -> world -> option exn.
Hypothesis fault_quiet : quiet fault.

Lemma step_quiet_cases c w :
  (exists e, sem c w = inl e /\ step fault c w = (inl e, log c (Raised e) w))
  \/ (exists r w', sem c w = inr (r, w')
                   /\ step fault c w = (inr r, log c Returned w')).
Proof.
  unfold step. rewrite fault_quiet.
  replace (if fallible c then None else None) with (@None exn)
    by (by destruct (fallible c)).
  destruct (sem c w) as [e | [r w']].
  - left. by exists e.
  - right. by exists r, w'.
Qed.

Ltac fields :=
  cbn [fst snd files dirs cwd modules heap stdout trace log with_modules
         with_heap with_files with_dirs with_stdout load_module].

Ltac fields_in H :=
  cbn [fst snd files dirs cwd modules heap stdout trace log with_modules
         with_heap with_files with_dirs with_stdout load_module] in H.

Ltac exec HR :=
  rewrite run_Do in HR;
  match type of HR with
  | context [step ?f ?c ?w] =>
      let Hs := fresh "Hs" in
      destruct (step_quiet_cases c w) as [(?e & ?Herr & Hs) | (?r & ?w' & ?Hsem & Hs)];
      rewrite Hs in HR; clear Hs; cbn [fst snd] in HR
  end.

Ltac ended HR :=
  rewrite HR; fields; rewrite <- ?app_assoc; rewrite drop_app_length; reflexivity.

Lemma quiet_run w :
  (outcome fault script w, length (events fault script w))
  = match files w !! resolve (cwd w) "training_data.npz" with
    | None =>
        (inl (Exn (if bool_decide (resolve (cwd w) "training_data.npz" ∈ dirs w)
                   then "IsADirectoryError" else "FileNotFoundError")), 8)
    | Some (Npz d) =>
        match d !! "X" with
        | None => (inl (Exn "KeyError"), 9)
        | Some X =>
            match d !! "y" with
            | None => (inl (Exn "KeyError"), 10)
            | Some _ =>
                match batch_error architecture X with
                | Some e => (inl e, 14)
                | None =>
                    match files w !! resolve (cwd w) model_dir with
                    | Some _ => (inl (Exn "FileExistsError"), 15)
                    | None => (inr tt, 17)
                    end
                end
            end
        end
    | Some _ => (inl (Exn "ValueError"), 8)
    end.
Proof.
  unfold outcome, events, final.
  remember (run fault script w) as R eqn:HR.
  unfold script, perform in HR. cbn [mbind prog_bind bind] in HR.
  exec HR; [discriminate Herr |].
  apply sem_Import in Hsem. subst w'.
  rewrite run_Do in HR.
  erewrite step_SetAttr in HR by (cbn [modules log]; apply load_module_lookup).
  cbn [fst snd] in HR.
  rewrite run_Do in HR.
  erewrite step_SetAttr in HR
    by (cbn [modules log with_modules]; apply lookup_insert_eq).
  cbn [fst snd] in HR.
  exec HR; [discriminate Herr |].
  apply sem_Import in Hsem. subst w'.
  exec HR; [discriminate Herr |].
  apply sem_ImportFrom in Hsem. subst w'.
  exec HR; [discriminate Herr |].
  apply sem_ImportFrom in Hsem. subst w'.
  exec HR; [discriminate Herr |].
  apply sem_Import in Hsem. subst w'.
  exec HR.
  { apply sem_NpLoad_err in Herr.
    destruct Herr as [[Hf ->] | (c & Hf & Hc & ->)]; fields_in Hf; rewrite Hf.
    - ended HR.
    - destruct c as [d | st |]; [by destruct (Hc d) | ended HR | ended HR]. }
  apply sem_NpLoad in Hsem. destruct Hsem as [-> Hdata].
  fields_in Hdata. rewrite Hdata. clear Hdata.
  exec HR.
  { apply sem_GetItem_err in Herr. destruct Herr as [Hk ->]. rewrite Hk. ended HR. }
  apply sem_GetItem in Hsem. destruct Hsem as [-> HX].
  cbn [ret_type] in HX. rewrite HX. clear HX.
  exec HR.
  { apply sem_GetItem_err in Herr. destruct Herr as [Hk ->]. rewrite Hk. ended HR. }
  apply sem_GetItem in Hsem. destruct Hsem as [-> Hy].
  cbn [ret_type] in Hy. rewrite Hy. clear Hy.
  exec HR; [by apply sem_Sequential_err in Herr |].
  apply sem_Sequential in Hsem. destruct Hsem as [Hm ->].
  fields_in Hm. subst r7. fields_in HR.
  exec HR; [by eapply sem_Compile_err in Herr; [| fields; apply lookup_fresh] |].
  apply sem_Compile in Hsem. destruct Hsem as (st & Hst & ->).
  fields_in Hst. rewrite lookup_fresh in Hst. injection Hst as <-.
  fields_in HR. rewrite insert_fresh in HR. cbn [m_layers m_epochs_trained] in HR.
  exec HR; [by eapply sem_Summary_err in Herr; [| fields; apply lookup_fresh] |].
  apply sem_Summary in Hsem. destruct Hsem as (st & Hst & ->).
  fields_in Hst. rewrite lookup_fresh in Hst. injection Hst as <-.
  fields_in HR.
  exec HR.
  { eapply sem_Fit_err in Herr; [| fields; apply lookup_fresh | reflexivity].
    cbn [m_layers] in Herr. rewrite Herr. ended HR. }
  pose proof (sem_Fit_ok _ _ _ _ _ _ _ _ _ _ Hsem _ (lookup_fresh _ _)) as Hconf.
  apply sem_Fit in Hsem. destruct Hsem as (st & Hst & _ & _ & _ & ->).
  fields_in Hst. rewrite lookup_fresh in Hst. injection Hst as <-.
  cbn [m_layers] in Hconf. rewrite Hconf. clear Hconf.
  fields_in HR. rewrite insert_fresh in HR.
  cbn [m_layers m_epochs_trained m_compiled Nat.add] in HR.
  exec HR.
  { apply sem_Makedirs_err in Herr. destruct Herr as [[c Hc] ->].
    fields_in Hc. rewrite Hc. ended HR. }
  apply sem_Makedirs in Hsem. destruct Hsem as (Hdir & ->).
  fields_in Hdir. rewrite Hdir. clear Hdir. fields_in HR.
  exec HR; [by eapply sem_Save_err in Herr; [| fields; apply lookup_fresh] |].
  apply sem_Save in Hsem. destruct Hsem as (st & Hst & ->).
  fields_in Hst. rewrite lookup_fresh in Hst. injection Hst as <-.
  fields_in HR.
  exec HR; [discriminate Herr |].
  apply sem_Print in Hsem. subst w'.
  simpl run in HR.
  match goal with u : ret_type (Print _) |- _ => destruct u end.
  ended HR.
Qed.
End Quiet.

(** * Where a run has got to *)

Lemma progress_facts fault w n :
  (n = 17 /\ outcome fault script w = inr tt
   /\ events fault script w = map returned (calls_from w))
  \/ (exists c e,
         calls_from w !! n = Some c
         /\ outcome fault script w = inl e
         /\ events fault script w
            = map returned (take n (calls_from w)) ++ [(c, Raised e)]) ->
  n <= 17
  /\ (outcome fault script w = inr tt <-> n = 17)
  /\ (n < 17 -> exists e, outcome fault script w = inl e)
  /\ length (events fault script w) = (if decide (n = 17) then 17 else S n).
Proof.
  intros [(-> & Hout & Hev) | (c & e & Hc & Hout & Hev)].
  - split; [lia |]. split; [done |]. split; [lia |]. by rewrite Hev.
  - pose proof (lookup_lt_Some _ _ _ Hc) as Hlt.
    change (length (calls_from w)) with 17 in Hlt.
    split; [lia |]. split; [split; [congruence | lia] |]. split; [by eexists |].
    rewrite Hev, length_app, length_map, length_take.
    change (length (calls_from w)) with 17. simpl. case_decide; lia.
Qed.

Lemma conforms_shape X :
  conforms architecture X = true <-> exists n t, nd_shape X = [n; t; 8].
Proof.
  unfold conforms. cbn [declared_input_shape architecture input_shape].
  destruct (nd_shape X) as [| n s].
  { split; [discriminate | by intros (? & ? & ?)]. }
  rewrite bool_decide_eq_true. split.
  - intros [Hlen Hlast]. destruct s as [| t [| f [| ? ?]]]; try discriminate.
    injection Hlast as ->. by exists n, t.
  - by intros (n' & t & [= -> ->]).
Qed.

Lemma conforming_batch X :
  conforms architecture X = true -> batch_error architecture X = None.
Proof.
  intros H. unfold batch_error. rewrite H.
  apply conforms_shape in H. by destruct H as (n & t & ->).
Qed.

Lemma eight_features X n t f :
  conforms architecture X = true -> nd_shape X = [n; t; f] -> f = 8.
Proof.
  intros H Hshape. apply conforms_shape in H. destruct H as (n' & t' & H).
  congruence.
Qed.

Lemma dataset_not_model cwd :
  cwd ++ ["training_data.npz"] <> cwd ++ ["trend_model.keras"].
Proof. intros H. by apply app_inv_head in H. Qed.

(** Where each call of the script stands in it. *)
Lemma fit_position w i m X y e b v vb :
  calls_from w !! i = Some (Fit m X y e b v vb) ->
  i = 13 /\ m = length (heap w)
  /\ X = stored_array w "X" /\ y = stored_array w "y".
Proof.
  intros Hi. unfold calls_from, script_calls in Hi.
  do 17 (destruct i as [| i];
         [cbn in Hi; first [discriminate | by injection Hi as <- <- <- _ _ _ _] |]).
  discriminate.
Qed.

Lemma makedirs_position w i name ok :
  calls_from w !! i = Some (Makedirs name ok) -> i = 14.
Proof.
  intros Hi. unfold calls_from, script_calls in Hi.
  do 17 (destruct i as [| i]; [cbn in Hi; first [discriminate | done] |]).
  discriminate.
Qed.

Lemma save_position w i m f :
  calls_from w !! i = Some (Save m f) ->
  i = 15 /\ m = length (heap w) /\ f = "trend_model.keras".
Proof.
  intros Hi. unfold calls_from, script_calls in Hi.
  do 17 (destruct i as [| i];
         [cbn in Hi; first [discriminate | by injection Hi as <- <-] |]).
  discriminate.
Qed.

Lemma sequential_position w i ls :
  calls_from w !! i = Some (Sequential ls) -> i = 10 /\ ls = architecture.
Proof.
  intros Hi. unfold calls_from, script_calls in Hi.
  do 17 (destruct i as [| i];
         [cbn in Hi; first [discriminate | by injection Hi as <-] |]).
  discriminate.
Qed.

(** The events of a run that got through [n] calls: the calls before the
    [n]-th have returned, and nothing after it was called. *)
Lemma returned_events fault w n i c :
  (n = 17 /\ outcome fault script w = inr tt
   /\ events fault script w = map returned (calls_from w))
  \/ (exists c e,
         calls_from w !! n = Some c
         /\ outcome fault script w = inl e
         /\ events fault script w
            = map returned (take n (calls_from w)) ++ [(c, Raised e)]) ->
  i < n ->
  calls_from w !! i = Some c ->
  In (returned c) (events fault script w).
Proof.
  intros [(-> & _ & Hev) | (c' & e & Hc & _ & Hev)] Hi Hci; rewrite Hev.
  - apply in_map, list_elem_of_In. eapply list_elem_of_lookup_2. exact Hci.
  - apply in_or_app. left. apply in_map, list_elem_of_In.
    eapply list_elem_of_lookup_2. apply lookup_take_Some. split; [exact Hci | exact Hi].
Qed.

Lemma events_lookup fault w n c r :
  (n = 17 /\ outcome fault script w = inr tt
   /\ events fault script w = map returned (calls_from w))
  \/ (exists c e,
         calls_from w !! n = Some c
         /\ outcome fault script w = inl e
         /\ events fault script w
            = map returned (take n (calls_from w)) ++ [(c, Raised e)]) ->
  In (c, r) (events fault script w) ->
  exists i, calls_from w !! i = Some c /\ i <= n /\ (r = Returned -> i < n).
Proof.
  intros [(-> & _ & Hev) | (c' & e & Hc & _ & Hev)] Hin; rewrite Hev in Hin.
  - apply in_map_iff in Hin. destruct Hin as (c0 & [= -> _] & Hc0).
    apply list_elem_of_In, list_elem_of_lookup in Hc0. destruct Hc0 as [i Hi].
    pose proof (lookup_lt_Some _ _ _ Hi) as Hlt.
    change (length (calls_from w)) with 17 in Hlt.
    exists i. split; [exact Hi |]. split; lia.
  - apply in_app_or in Hin. destruct Hin as [Hin | [[= -> <-] | []]].
    + apply in_map_iff in Hin. destruct Hin as (c0 & [= -> _] & Hc0).
      apply list_elem_of_In, list_elem_of_lookup in Hc0. destruct Hc0 as [i Hi].
      apply lookup_take_Some in Hi. destruct Hi as [Hi Hlt].
      exists i. split; [exact Hi |]. split; lia.
    + exists n. split; [exact Hc |]. split; [lia | discriminate].
Qed.

Lemma success_state fault w :
  outcome fault script w = inr tt ->
  exists d X y,
    files w !! dataset_path w = Some (Npz d)
    /\ d !! "X" = Some X
    /\ d !! "y" = Some y
    /\ conforms architecture X = true
    /\ files w !! model_dir_path w = None
    /\ cwd (final fault script w) = cwd w
    /\ files (final fault script w)
       = <[model_path w := KerasArchive trained_model]> (files w)
    /\ dirs (final fault script w)
       = dirs w ∪ list_to_set (ancestors (model_dir_path w))
    /\ heap (final fault script w) = heap w ++ [trained_model].
Proof.
  intros Hok.
  destruct (script_run_state fault w)
    as (n & Htie & Hcwd & _ & Hfiles & _ & Hdirs & _ & _ & _ & Hheap & _ & _ & _
          & Hfile & HX & Hy & Hconf & Hdir).
  apply progress_facts in Htie. destruct Htie as (_ & Hn & _).
  apply Hn in Hok. subst n.
  rewrite resolve_dataset in Hfile.
  rewrite resolve_model_dir in Hdir, Hdirs. rewrite resolve_model_file in Hfiles.
  exists (stored_data w), (stored_array w "X"), (stored_array w "y").
  repeat split;
    [apply Hfile | apply HX | apply Hy | apply Hconf | apply Hdir | exact Hcwd
    | apply Hfiles | apply Hdirs | apply Hheap]; lia.
Qed.

(** * The claims about the windows and the saved model *)

(** Windows of 5 time steps go through: fit returns on them, and the run
    succeeds. *)
Lemma five_step_windows_fitted :
  In (returned (Fit 0 {| nd_shape := [2; 5; 8]; nd_data := [] |}
                  {| nd_shape := [2]; nd_data := [] |} 20 32 0.2 1))
     (events never script short_window_world)
  /\ outcome never script short_window_world = inr tt
  /\ ~ (exists n, nd_shape {| nd_shape := [2; 5; 8]; nd_data := [] |} = [n; 6; 8]).
Proof.
  split; [vm_compute; do 13 right; left; reflexivity |].
  split; [vm_compute; reflexivity |].
  intros [n Hn]. discriminate Hn.
Qed.

(** C2: the input layer is built with input shape (6, 8), in every run; what
    that holds an example to is its 8 features, not its 6 time steps: a batch
    of windows that fit has accepted, in any run, has 8 features to the time
    step. *)
Theorem window_has_eight_features :
  input_shape = [6; 8]
  /\ head architecture = Some (InputLayer input_shape)
  /\ (forall fault w ls r,
        In (Sequential ls, r) (events fault script w) ->
        head ls = Some (InputLayer [6; 8]))
  /\ (forall fault w m X y e b v vb,
        In (returned (Fit m X y e b v vb)) (events fault script w) ->
        forall n t f, nd_shape X = [n; t; f] -> f = 8).
Proof.
  split; [reflexivity |]. split; [reflexivity |]. split.
  - intros fault w ls r Hin.
    destruct (script_run_state fault w) as (k & Htie & _).
    destruct (events_lookup fault w k _ _ Htie Hin) as (i & Hi & _).
    by destruct (sequential_position w i ls Hi) as [_ ->].
  - intros fault w m X y e b v vb Hin n t f Hshape.
    destruct (script_run_state fault w)
      as (k & Htie & _ & _ & _ & _ & _ & _ & _ & _ & _ & _ & _ & _
            & _ & _ & _ & Hconf & _).
    destruct (events_lookup fault w k _ _ Htie Hin) as (i & Hi & _ & Hlt).
    destruct (fit_position w i _ _ _ _ _ _ _ Hi) as (-> & _ & -> & _).
    eapply eight_features; [apply Hconf, Hlt; reflexivity | exact Hshape].
Qed.

Lemma window_has_eight_features_witness :
  head architecture = Some (InputLayer [6; 8])
  /\ nth 2 (nd_shape (stored_array short_window_world "X")) 0 = 8.
Proof.
  destruct window_has_eight_features as (_ & Hhead & _ & Hfit).
  split; [exact Hhead |].
  apply (Hfit never short_window_world 0 (stored_array short_window_world "X")
           (stored_array short_window_world "y") 20 32 0.2%Q 1
           ltac:(vm_compute; do 13 right; left; reflexivity) 2 5).
  reflexivity.
Defined.

(** With a regular file where the model directory is to go, fit completes,
    the run ends in [os.makedirs], and the trained model is not saved. *)
Lemma fitted_model_not_saved :
  In (returned (Fit 0 {| nd_shape := [2; 6; 8]; nd_data := [] |}
                  {| nd_shape := [2]; nd_data := [] |} 20 32 0.2 1))
     (events never script blocked_world)
  /\ outcome never script blocked_world = inl (Exn "FileExistsError")
  /\ stages (events never script blocked_world)
     = [LoadData; Construct; CompileModel; FitModel]
  /\ heap (final never script blocked_world) = [trained_model]
  /\ files (final never script blocked_world) !! model_path blocked_world = None.
Proof.
  split; [vm_compute; do 13 right; left; reflexivity |].
  repeat split; vm_compute; reflexivity.
Qed.

(** C6: the model is saved once the call of [os.makedirs] that follows fit has
    returned: [model.save] is called in the runs in which fit and makedirs
    have returned and in no other, it names the file trend_model.keras, and
    once it has returned the file holds the archive Keras makes of the model
    as built, compiled and fitted, to the end of the run, whether or not the
    last print succeeds.  A successful run has saved. *)
Theorem saved_once_makedirs_returns fault w :
  (forall m f r,
      In (Save m f, r) (events fault script w) ->
      m = length (heap w) /\ f = "trend_model.keras"
      /\ In (returned (Fit (length (heap w)) (stored_array w "X")
                         (stored_array w "y") 20 32 0.2 1))
            (events fault script w)
      /\ In (returned (Makedirs model_dir true)) (events fault script w))
  /\ (In (returned (Makedirs model_dir true)) (events fault script w) ->
      exists r, In (Save (length (heap w)) "trend_model.keras", r)
                   (events fault script w))
  /\ (In (returned (Save (length (heap w)) "trend_model.keras"))
         (events fault script w) ->
      files (final fault script w) !! (cwd w ++ ["trend_model.keras"])
      = Some (KerasArchive trained_model))
  /\ (outcome fault script w = inr tt ->
      In (returned (Save (length (heap w)) "trend_model.keras"))
         (events fault script w)).
Proof.
  destruct (script_run_state fault w) as (n & Htie & _ & _ & Hsaved & _).
  pose proof (progress_facts fault w n Htie) as (Hle & Hn & _ & _).
  split; [| split; [| split]].
  - intros m f r Hin.
    destruct (events_lookup fault w n _ _ Htie Hin) as (i & Hi & Hin' & _).
    destruct (save_position w i m f Hi) as (-> & -> & ->).
    split; [reflexivity |]. split; [reflexivity |].
    split.
    + apply (returned_events fault w n 13 _ Htie); [lia | reflexivity].
    + apply (returned_events fault w n 14 _ Htie); [lia | reflexivity].
  - intros Hin.
    destruct (events_lookup fault w n _ _ Htie Hin) as (i & Hi & _ & Hlt).
    apply makedirs_position in Hi. subst i. specialize (Hlt eq_refl).
    destruct (decide (n = 15)) as [-> | Hne].
    + destruct Htie as [(? & _) | (c & e & Hc & _ & Hev)]; [lia |].
      cbn in Hc. injection Hc as <-. exists (Raised e).
      rewrite Hev. apply in_or_app. right. by left.
    + exists Returned.
      apply (returned_events fault w n 15 _ Htie); [lia | reflexivity].
  - intros Hin.
    destruct (events_lookup fault w n _ _ Htie Hin) as (i & Hi & _ & Hlt).
    apply save_position in Hi. destruct Hi as (-> & _).
    rewrite Hsaved by (apply Hlt; reflexivity).
    rewrite resolve_model_file. apply lookup_insert_eq.
  - intros Hok. apply Hn in Hok. subst n.
    apply (returned_events fault w 17 15 _ Htie); [lia | reflexivity].
Qed.

Lemma saved_once_makedirs_returns_witness :
  files (final never script sample_world) !! ["repo"; "training"; "trend_model.keras"]
  = Some (KerasArchive trained_model).
Proof.
  apply (proj1 (proj2 (proj2 (saved_once_makedirs_returns never sample_world)))).
  vm_compute. do 15 right. left. reflexivity.
Defined.

(** * What else a run does, and does not *)

(** X1: a run succeeds only where the working directory holds
    training_data.npz as an archive with arrays X and y, the windows of X
    have 8 features to the time step, and no regular file sits where the
    model directory goes. *)
Theorem success_needs fault w :
  outcome fault script w = inr tt ->
  exists d X y,
    files w !! dataset_path w = Some (Npz d)
    /\ d !! "X" = Some X
    /\ d !! "y" = Some y
    /\ (forall n t f, nd_shape X = [n; t; f] -> f = 8)
    /\ files w !! model_dir_path w = None.
Proof.
  intros Hok.
  destruct (success_state fault w Hok)
    as (d & X & y & Hd & HX & Hy & Hconf & Hdir & _).
  exists d, X, y. repeat split; try assumption.
  intros n t f. by apply eight_features.
Qed.

Lemma success_needs_witness :
  exists d X y,
    files sample_world !! dataset_path sample_world = Some (Npz d)
    /\ d !! "X" = Some X
    /\ d !! "y" = Some y
    /\ (forall n t f, nd_shape X = [n; t; f] -> f = 8)
    /\ files sample_world !! model_dir_path sample_world = None.
Proof.
  apply (success_needs never sample_world). vm_compute. reflexivity.
Defined.

(** X3: with no file training_data.npz in the working directory every run
    fails before a model is built: no model object, no directory, no file and
    no output; against a quiet library the failure is the one of opening the
    path, IsADirectoryError where a directory has that name and
    FileNotFoundError where nothing has. *)
Theorem missing_dataset fault w :
  files w !! dataset_path w = None ->
  (exists e, outcome fault script w = inl e)
  /\ heap (final fault script w) = heap w
  /\ dirs (final fault script w) = dirs w
  /\ files (final fault script w) = files w
  /\ stdout (final fault script w) = stdout w
  /\ (quiet fault ->
      (dataset_path w ∈ dirs w ->
       outcome fault script w = inl (Exn "IsADirectoryError"))
      /\ (dataset_path w ∉ dirs w ->
          outcome fault script w = inl (Exn "FileNotFoundError"))).
Proof.
  intros Hnone.
  destruct (script_run_state fault w)
    as (n & Htie & _ & Hfiles & _ & Hdirs & _ & Hheap & _ & _ & _ & Hout & _ & _
          & Hfile & _).
  apply progress_facts in Htie. destruct Htie as (_ & _ & Hfail & _).
  rewrite resolve_dataset in Hfile. unfold dataset_path in *.
  assert (n <= 7) as Hn.
  { destruct (decide (n <= 7)); [done |]. rewrite Hfile in Hnone by lia. done. }
  split; [apply Hfail; lia |].
  split; [apply Hheap; lia |]. split; [apply Hdirs; lia |].
  split; [apply Hfiles; lia |]. split; [apply Hout; lia |].
  intros Hq. pose proof (quiet_run fault Hq w) as Hrun.
  rewrite resolve_dataset, Hnone in Hrun. injection Hrun as Hrun.
  split; intros Hdir; rewrite Hrun.
  - by rewrite bool_decide_eq_true_2.
  - by rewrite bool_decide_eq_false_2.
Qed.

Lemma missing_dataset_witness :
  outcome never script no_dataset_world = inl (Exn "FileNotFoundError")
  /\ outcome never script dataset_dir_world = inl (Exn "IsADirectoryError")
  /\ heap (final never script no_dataset_world) = [].
Proof.
  destruct (missing_dataset never no_dataset_world eq_refl)
    as (_ & Hheap & _ & _ & _ & Hq).
  destruct (missing_dataset never dataset_dir_world eq_refl)
    as (_ & _ & _ & _ & _ & Hq').
  split; [| split; [| exact Hheap]].
  - apply Hq; [intros c w; reflexivity |].
    apply (bool_decide_unpack (dataset_path no_dataset_world
                                 ∉ dirs no_dataset_world)).
    vm_compute. exact I.
  - apply Hq'; [intros c w; reflexivity |].
    apply (bool_decide_unpack (dataset_path dataset_dir_world
                                 ∈ dirs dataset_dir_world)).
    vm_compute. exact I.
Defined.

(** X4: an archive without X, or without y, fails every run before a model
    is built; a quiet library makes it a KeyError. *)
Theorem missing_array fault w d :
  files w !! dataset_path w = Some (Npz d) ->
  d !! "X" = None \/ d !! "y" = None ->
  (exists e, outcome fault script w = inl e)
  /\ heap (final fault script w) = heap w
  /\ dirs (final fault script w) = dirs w
  /\ files (final fault script w) = files w
  /\ (quiet fault -> outcome fault script w = inl (Exn "KeyError")).
Proof.
  intros Hd Hmiss.
  destruct (script_run_state fault w)
    as (n & Htie & _ & Hfiles & _ & Hdirs & _ & Hheap & _ & _ & _ & _ & _ & _
          & _ & HX & Hy & _).
  apply progress_facts in Htie. destruct Htie as (_ & _ & Hfail & _).
  unfold dataset_path in Hd.
  assert (stored_data w = d) as Hsd
    by (apply stored_data_spec; by rewrite resolve_dataset).
  rewrite Hsd in HX, Hy.
  assert (n <= 9) as Hn.
  { destruct (decide (n <= 9)); [done |].
    destruct Hmiss as [Hm | Hm]; [rewrite HX in Hm by lia | rewrite Hy in Hm by lia];
      done. }
  split; [apply Hfail; lia |].
  split; [apply Hheap; lia |]. split; [apply Hdirs; lia |].
  split; [apply Hfiles; lia |].
  intros Hq. pose proof (quiet_run fault Hq w) as Hrun.
  rewrite resolve_dataset, Hd in Hrun.
  destruct (d !! "X") as [X |]; [| by injection Hrun].
  destruct Hmiss as [Hm | Hm]; [done |]. rewrite Hm in Hrun. by injection Hrun.
Qed.

Lemma missing_array_witness :
  outcome never script no_labels_world = inl (Exn "KeyError").
Proof.
  refine (proj2 (proj2 (proj2 (proj2
    (missing_array never no_labels_world
       (<["X" := {| nd_shape := [2; 6; 8]; nd_data := [] |}]> ∅) _ _)))) _).
  - vm_compute. reflexivity.
  - right. vm_compute. reflexivity.
  - intros c w. reflexivity.
Defined.

(** X5: windows with another number of features than 8 fail every run
    before any directory is made or file written: the save is never
    called. *)
Theorem wrong_feature_count fault w d X n t f :
  files w !! dataset_path w = Some (Npz d) ->
  d !! "X" = Some X ->
  nd_shape X = [n; t; f] ->
  f <> 8 ->
  (exists e, outcome fault script w = inl e)
  /\ dirs (final fault script w) = dirs w
  /\ files (final fault script w) = files w
  /\ (forall m p r, ~ In (Save m p, r) (events fault script w)).
Proof.
  intros Hd HX Hshape Hf.
  destruct (script_run_state fault w)
    as (k & Htie & _ & Hfiles & _ & Hdirs & _ & _ & _ & _ & _ & _ & _ & _
          & _ & _ & _ & Hconf & _).
  pose proof (progress_facts fault w k Htie) as (_ & _ & Hfail & _).
  unfold dataset_path in Hd.
  assert (stored_array w "X" = X) as HsX.
  { apply stored_array_spec.
    rewrite (stored_data_spec w d) by (by rewrite resolve_dataset). exact HX. }
  assert (k <= 13) as Hk.
  { destruct (decide (k <= 13)); [done |]. destruct Hf.
    eapply eight_features; [apply Hconf; lia |]. by rewrite HsX. }
  split; [apply Hfail; lia |].
  split; [apply Hdirs; lia |]. split; [apply Hfiles; lia |].
  intros m p r Hin.
  destruct (events_lookup fault w k _ _ Htie Hin) as (i & Hi & Hle & _).
  apply save_position in Hi. lia.
Qed.

Lemma wrong_feature_count_witness :
  (exists e, outcome never script narrow_window_world = inl e)
  /\ files (final never script narrow_window_world) = files narrow_window_world.
Proof.
  destruct (wrong_feature_count never narrow_window_world
              (<["X" := {| nd_shape := [2; 6; 5]; nd_data := [] |}]>
                 (<["y" := {| nd_shape := [2]; nd_data := [] |}]> ∅))
              {| nd_shape := [2; 6; 5]; nd_data := [] |} 2 6 5)
    as (Hfail & _ & Hfiles & _).
  - vm_compute. reflexivity.
  - vm_compute. reflexivity.
  - reflexivity.
  - discriminate.
  - split; [exact Hfail | exact Hfiles].
Defined.

(** X6: with a regular file where ../public/models/trend-cnn is to go, every
    run fails, and no run saves a model: the save is never called, and no
    file and no directory changes. *)
Theorem blocked_model_dir fault w c :
  files w !! model_dir_path w = Some c ->
  (exists e, outcome fault script w = inl e)
  /\ files (final fault script w) = files w
  /\ dirs (final fault script w) = dirs w
  /\ (forall m p r, ~ In (Save m p, r) (events fault script w)).
Proof.
  intros Hblocked.
  destruct (script_run_state fault w)
    as (n & Htie & _ & Hfiles & _ & Hdirs & _ & _ & _ & _ & _ & _ & _ & _
          & _ & _ & _ & _ & Hdir).
  pose proof (progress_facts fault w n Htie) as (_ & _ & Hfail & _).
  unfold model_dir_path in Hblocked. rewrite resolve_model_dir in Hdir.
  assert (n <= 14) as Hn.
  { destruct (decide (n <= 14)); [done |]. rewrite Hdir in Hblocked by lia. done. }
  split; [apply Hfail; lia |].
  split; [apply Hfiles; lia |]. split; [apply Hdirs; lia |].
  intros m p r Hin.
  destruct (events_lookup fault w n _ _ Htie Hin) as (i & Hi & Hle & _).
  apply save_position in Hi. lia.
Qed.

Lemma blocked_model_dir_witness :
  (exists e, outcome never script blocked_world = inl e)
  /\ files (final never script blocked_world) = files blocked_world.
Proof.
  destruct (blocked_model_dir never blocked_world Blob) as (Hfail & Hfiles & _).
  - vm_compute. reflexivity.
  - split; [exact Hfail | exact Hfiles].
Defined.

(** X7: no run removes a directory, and the directories change only in a
    run in which fit has returned. *)
Theorem dirs_only_after_fit fault w :
  dirs w ⊆ dirs (final fault script w)
  /\ (dirs (final fault script w) <> dirs w ->
      In (returned (Fit (length (heap w)) (stored_array w "X")
                      (stored_array w "y") 20 32 0.2 1))
         (events fault script w)).
Proof.
  destruct (script_run_state fault w)
    as (n & Htie & _ & _ & _ & Hsame & Hmade & _).
  split.
  - destruct (decide (n <= 14)) as [Hn | Hn].
    + by rewrite Hsame.
    + rewrite Hmade by lia. apply union_subseteq_l.
  - intros Hchanged.
    assert (14 < n) as Hn.
    { destruct (decide (n <= 14)); [| lia]. by destruct Hchanged; apply Hsame. }
    destruct Htie as [(_ & _ & Hev) | (c & e & Hc & _ & Hev)]; rewrite Hev.
    + unfold calls_from, script_calls. simpl. tauto.
    + pose proof (lookup_lt_Some _ _ _ Hc) as Hlt.
      change (length (calls_from w)) with 17 in Hlt.
      apply in_or_app. left.
      assert (n = 15 \/ n = 16) as [-> | ->] by lia;
        unfold calls_from, script_calls; simpl; tauto.
Qed.

Lemma dirs_only_after_fit_witness :
  In (returned (Fit 0 {| nd_shape := [2; 6; 8]; nd_data := [] |}
                  {| nd_shape := [2]; nd_data := [] |} 20 32 0.2 1))
     (events never script sample_world).
Proof.
  apply (proj2 (dirs_only_after_fit never sample_world)).
  intros H.
  assert (bool_decide (model_dir_path sample_world
                         ∈ dirs (final never script sample_world)) = true) as Hin
    by (vm_compute; reflexivity).
  rewrite H in Hin. vm_compute in Hin. discriminate Hin.
Defined.

(** X8: no run changes its working directory, and no run touches a file
    other than trend_model.keras in it: the dataset is left as it was. *)
Theorem only_model_file_touched fault w p :
  p <> model_path w ->
  cwd (final fault script w) = cwd w
  /\ files (final fault script w) !! p = files w !! p.
Proof.
  intros Hp.
  destruct (script_run_state fault w)
    as (n & _ & Hcwd & Hsame & Hsaved & _).
  split; [exact Hcwd |].
  destruct (decide (n <= 15)) as [Hn | Hn].
  - by rewrite Hsame.
  - rewrite Hsaved by lia. rewrite resolve_model_file.
    rewrite lookup_insert_ne; [done |]. intros Heq. by apply Hp.
Qed.

Lemma only_model_file_touched_witness :
  files (final never script sample_world) !! dataset_path sample_world
  = Some (Npz sample_data).
Proof.
  rewrite (proj2 (only_model_file_touched never sample_world
                    (dataset_path sample_world) (dataset_not_model _))).
  reflexivity.
Defined.

(** X9: the line "Saved trend_model.keras" is printed in the runs that
    succeed and in no other, and where it is printed the file holds the
    trained model. *)
Theorem saved_message_is_true fault w :
  (In "Saved trend_model.keras"
      (drop (length (stdout w)) (stdout (final fault script w)))
   <-> outcome fault script w = inr tt)
  /\ (In "Saved trend_model.keras"
         (drop (length (stdout w)) (stdout (final fault script w))) ->
      files (final fault script w) !! model_path w
      = Some (KerasArchive trained_model)).
Proof.
  destruct (script_run_state fault w)
    as (n & Htie & _ & _ & Hsaved & _ & _ & _ & _ & _ & _
          & Hout0 & Hout1 & Hout2 & _).
  apply progress_facts in Htie. destruct Htie as (Hle & Hn & _ & _).
  assert (In "Saved trend_model.keras"
             (drop (length (stdout w)) (stdout (final fault script w)))
          <-> n = 17) as Hmsg.
  { destruct (decide (n <= 12)) as [H12 | H12].
    - rewrite Hout0 by lia. rewrite drop_all. simpl. split; [tauto | lia].
    - destruct (decide (n = 17)) as [-> | H17].
      + rewrite Hout2 by lia. rewrite drop_app_length.
        split; [done |]. intros _. unfold printed. simpl. tauto.
      + rewrite Hout1 by lia. rewrite drop_app_length.
        split; [| lia]. simpl. intuition discriminate. }
  split; [by rewrite Hmsg, Hn |].
  intros Hin. apply Hmsg in Hin. subst n.
  rewrite Hsaved by lia. rewrite resolve_model_file. apply lookup_insert_eq.
Qed.

Lemma saved_message_is_true_witness :
  files (final never script sample_world) !! model_path sample_world
  = Some (KerasArchive trained_model).
Proof.
  apply (proj2 (saved_message_is_true never sample_world)).
  vm_compute. do 8 right. left. reflexivity.
Defined.

(** X11: in every run, failed ones too, the five steps come in order and at
    most once each: the steps taken are an initial part of load, construct,
    compile, fit, save. *)
Theorem stages_never_reorder fault w :
  stages (events fault script w)
    `prefix_of` [LoadData; Construct; CompileModel; FitModel; SaveModel].
Proof.
  destruct (script_run_state fault w) as (n & Htie & _).
  destruct Htie as [(_ & _ & Hev) | (c & e & Hc & _ & Hev)]; rewrite Hev.
  - by exists [].
  - unfold calls_from, script_calls in *.
    do 17 (destruct n as [| n];
           [cbn in Hc; injection Hc as <-; cbn; by eexists |]).
    discriminate Hc.
Qed.

(** X12: a run never resumes: after a successful run, a second run in the
    state the first has left succeeds against a quiet library, leaves the
    same files and directories, and has built and trained a second model of
    its own for 20 epochs. *)
Theorem second_run_starts_afresh fault1 fault2 w :
  outcome fault1 script w = inr tt ->
  quiet fault2 ->
  let w1 := final fault1 script w in
  outcome fault2 script w1 = inr tt
  /\ files (final fault2 script w1) = files w1
  /\ dirs (final fault2 script w1) = dirs w1
  /\ heap (final fault2 script w1) = heap w ++ [trained_model; trained_model].
Proof.
  intros Hok1 Hq w1.
  destruct (success_state fault1 w Hok1)
    as (d & X & y & Hd & HX & Hy & Hconf & Hdir & Hcwd & Hfiles & Hdirs & Hheap).
  fold w1 in Hcwd, Hfiles, Hdirs, Hheap.
  assert (outcome fault2 script w1 = inr tt) as Hok2.
  { pose proof (quiet_run fault2 Hq w1) as Hrun.
    rewrite resolve_dataset, resolve_model_dir, Hcwd, Hfiles in Hrun.
    rewrite lookup_insert_ne in Hrun
      by (unfold model_path; intros H; symmetry in H;
          by apply dataset_not_model in H).
    unfold dataset_path in Hd. rewrite Hd, HX, Hy in Hrun.
    rewrite (conforming_batch X Hconf) in Hrun.
    rewrite lookup_insert_ne in Hrun
      by (unfold model_path; intros H; symmetry in H; revert H;
          by apply model_file_outside_model_dir).
    unfold model_dir_path in Hdir. rewrite Hdir in Hrun. by injection Hrun. }
  split; [exact Hok2 |].
  destruct (success_state fault2 w1 Hok2)
    as (_ & _ & _ & _ & _ & _ & _ & _ & _ & Hfiles2 & Hdirs2 & Hheap2).
  unfold model_path, model_dir_path in *.
  rewrite Hfiles2, Hdirs2, Hheap2, Hcwd, Hfiles, Hdirs, Hheap.
  split; [by rewrite insert_insert_eq |].
  split; [by rewrite <- (assoc_L (∪)), (idemp_L (∪)) |].
  by rewrite <- app_assoc.
Qed.

Lemma second_run_starts_afresh_witness :
  heap (final never script (final never script sample_world))
  = [trained_model; trained_model].
Proof.
  refine (proj2 (proj2 (proj2
    (second_run_starts_afresh never never sample_world eq_refl
       (fun c w => eq_refl))))).
Defined.

(** X13: whenever fit is called, it is called on the arrays the archive
    training_data.npz holds under X and y, as they are. *)
Theorem fit_gets_the_dataset fault w m X y e b v vb r :
  In (Fit m X y e b v vb, r) (events fault script w) ->
  files w !! dataset_path w = Some (Npz (stored_data w))
  /\ stored_data w !! "X" = Some X
  /\ stored_data w !! "y" = Some y.
Proof.
  intros Hin.
  assert (forall i, calls_from w !! i = Some (Fit m X y e b v vb) ->
                    i = 13 /\ X = stored_array w "X" /\ y = stored_array w "y")
    as Hfit.
  { intros i Hi. unfold calls_from, script_calls in Hi.
    do 17 (destruct i as [| i];
           [cbn in Hi; first [discriminate | by injection Hi as _ <- <- _ _ _ _] |]).
    discriminate. }
  destruct (script_run_state fault w)
    as (n & Htie & _ & _ & _ & _ & _ & _ & _ & _ & _ & _ & _ & _
          & Hfile & HX & Hy & _).
  rewrite resolve_dataset in Hfile.
  assert (13 <= n) as Hn.
  { destruct Htie as [(-> & _ & _) | (c & e' & Hc & _ & Hev)]; [lia |].
    rewrite Hev in Hin. apply in_app_or in Hin.
    destruct Hin as [Hin | [[= Hceq _] | []]]; [| subst c].
    - apply in_map_iff in Hin. destruct Hin as (c' & [= Hc'eq _] & Hc'). subst c'.
      apply list_elem_of_In, list_elem_of_lookup in Hc'. destruct Hc' as [i Hi].
      apply lookup_take_Some in Hi. destruct Hi as [Hi Hlt].
      destruct (Hfit i Hi) as [-> _]. lia.
    - destruct (Hfit n Hc) as [-> _]. lia. }
  assert (exists i, calls_from w !! i = Some (Fit m X y e b v vb)) as [i Hi].
  { destruct Htie as [(_ & _ & Hev) | (c & e' & Hc & _ & Hev)]; rewrite Hev in Hin.
    - apply in_map_iff in Hin. destruct Hin as (c' & [= Hc'eq _] & Hc'). subst c'.
      by apply list_elem_of_In, list_elem_of_lookup in Hc'.
    - apply in_app_or in Hin.
      destruct Hin as [Hin | [[= Hceq _] | []]]; [| subst c; by eexists].
      apply in_map_iff in Hin. destruct Hin as (c' & [= Hc'eq _] & Hc'). subst c'.
      apply list_elem_of_In, list_elem_of_lookup in Hc'. destruct Hc' as [i Hi].
      apply lookup_take_Some in Hi. destruct Hi as [Hi _]. by eexists. }
  destruct (Hfit i Hi) as (_ & -> & ->).
  split; [apply Hfile; lia |]. split; [apply HX; lia | apply Hy; lia].
Qed.

Lemma fit_gets_the_dataset_witness :
  stored_data sample_world !! "X" = Some {| nd_shape := [2; 6; 8]; nd_data := [] |}.
Proof.
  refine (proj1 (proj2 (fit_gets_the_dataset never sample_world 0 _
    {| nd_shape := [2]; nd_data := [] |} 20 32 0.2%Q 1 Returned _))).
  vm_compute. do 13 right. left. reflexivity.
Defined.
